(** * The Librarian: the retrieval pipeline of the Borges RAG demo

    A shallow embedding of
      - [src/retrieval/vector_store.py]  ([ChromaVectorStore]),
      - [src/retrieval/chains.py]        ([BorgesRAGChain]),
      - [app.py]                         ([chat_with_librarian]),
    and the properties of the pipeline proved over it.

    Conventions.
      - A Python [str] is a [string]; one [ascii] stands for one character
        (code points 0..255), so [String.length] is Python's [len] and
        [substring 0 n] is the slice [[:n]].
      - A Python [float] is a binary64 [float] of [PrimFloat].
      - An exception is represented by its message [str(e)]: the code only
        ever catches [Exception] and reads [str(e)]. What is not an
        [Exception] (an interrupt, an exit) is outside the model.
      - The values of a metadata dictionary are taken as the text [str(v)]
        that an f-string prints.
      - The embedding model, the vector collection and the LLM client are
        external; they are the fields of [Env], and every call to one of them
        is recorded in the trace of the state.
      - Calls to the logger are left out. *)

From Stdlib Require Import ZArith String Ascii List Floats DecimalString Lia.
From stdpp Require Import gmap strings list.

#[local] Set Warnings "-inexact-float".
#[local] Open Scope Z_scope.

(** ** Strings *)

Definition nl : string := String "010" EmptyString.

(** [sep.join(parts)] *)
Fixpoint join (sep : string) (parts : list string) : string :=
  match parts with
  | [] => EmptyString
  | [p] => p
  | p :: rest => p +:+ sep +:+ join sep rest
  end.

(** [str(n)] for a non-negative integer. *)
Definition str_nat (n : nat) : string :=
  NilEmpty.string_of_uint (Nat.to_uint n).

Definition str_N (n : N) : string :=
  NilEmpty.string_of_uint (N.to_uint n).

(** [c.isspace()] on the code points below 256. *)
Definition isspace (c : ascii) : bool :=
  let n := N_of_ascii c in
  ((9 <=? n) && (n <=? 13) || (28 <=? n) && (n <=? 32)
   || (n =? 133) || (n =? 160))%N.

Fixpoint lstrip (s : string) : string :=
  match s with
  | EmptyString => EmptyString
  | String c rest => if isspace c then lstrip rest else s
  end.

Fixpoint rstrip (s : string) : string :=
  match s with
  | EmptyString => EmptyString
  | String c rest =>
      match rstrip rest with
      | EmptyString => if isspace c then EmptyString else String c EmptyString
      | r => String c r
      end
  end.

(** [s.strip()] *)
Definition strip (s : string) : string := rstrip (lstrip s).

(** Truth value of a string: [bool(s)]. *)
Definition truthy (s : string) : bool :=
  match s with EmptyString => false | _ => true end.

(** A string made of whitespace only (the empty string included). *)
Fixpoint whitespace_only (s : string) : bool :=
  match s with
  | EmptyString => true
  | String c rest => isspace c && whitespace_only rest
  end.

(** [sub] occurs in [s]. *)
Definition is_substring (sub s : string) : Prop :=
  exists pre post, s = pre +:+ sub +:+ post.

(** ** [format(x, '.3f')] on a binary64 float

    The value [m * 2^e] is scaled by 1000 and rounded to the nearest integer,
    ties to even, which is the correctly rounded result Python prints. *)

Definition round_half_even (num den : Z) : Z :=
  let q := num / den in
  let r := num mod den in
  if 2 * r <? den then q
  else if den <? 2 * r then q + 1
  else if Z.even q then q else q + 1.

Definition thousandths (m : positive) (e : Z) : Z :=
  if 0 <=? e then Z.pos m * 2 ^ e * 1000
  else round_half_even (Z.pos m * 1000) (2 ^ (- e)).

Definition digit (n : Z) : string :=
  String (ascii_of_N (48 + Z.to_N n)) EmptyString.

(** Three decimals of a count of thousandths. *)
Definition fixed3 (n : Z) : string :=
  let f := n mod 1000 in
  str_N (Z.to_N (n / 1000)) +:+ "." +:+
  digit (f / 100) +:+ digit (f / 10 mod 10) +:+ digit (f mod 10).

Definition signed (s : bool) (body : string) : string :=
  if s then "-" +:+ body else body.

Definition format_3f (x : float) : string :=
  match Prim2SF x with
  | S754_nan => "nan"
  | S754_infinity s => signed s "inf"
  | S754_zero s => signed s "0.000"
  | S754_finite s m e => signed s (fixed3 (thousandths m e))
  end.

(** ** Exceptions, state and the trace of external calls *)

Inductive Outcome (A : Type) : Type :=
| Return (a : A)
| Raise (e : string).
Arguments Return {A} a.
Arguments Raise {A} e.

Abbreviation Metadata := (gmap string string).
Abbreviation Embedding := (list float).

(** A call that leaves this program. *)
Inductive Event : Type :=
| EvSentenceTransformer (model : string)
| EvEncode (text : string)
| EvCollectionQuery (query_embeddings : list Embedding) (n_results : Z)
                    (include : list string)
| EvCollectionCount
| EvChatOpenAI (model_name : string) (max_tokens : Z)
| EvLLMInvoke (prompt : string).

(** The mutable fields of the two objects, [ChromaVectorStore._embedding_model]
    and [BorgesRAGChain._llm] ([false] is Python's [None]), and the calls made
    so far, oldest first. *)
Record State : Type := mkState {
  _embedding_model : bool;
  _llm : bool;
  trace : list Event
}.

Definition M (A : Type) : Type := State -> Outcome A * State.

Definition ret {A} (a : A) : M A := fun st => (Return a, st).

Definition raise {A} (e : string) : M A := fun st => (Raise e, st).

Definition bind {A B} (m : M A) (f : A -> M B) : M B :=
  fun st =>
    match m st with
    | (Return a, st') => f a st'
    | (Raise e, st') => (Raise e, st')
    end.

(** [try: m  except Exception as e: handler(str(e))] *)
Definition try_except {A} (m : M A) (handler : string -> M A) : M A :=
  fun st =>
    match m st with
    | (Return a, st') => (Return a, st')
    | (Raise e, st') => handler e st'
    end.

(** An external call: it is logged, then it returns or raises. *)
Definition call {A} (ev : Event) (result : Outcome A) : M A :=
  fun st =>
    (result,
     {| _embedding_model := _embedding_model st;
        _llm := _llm st;
        trace := trace st ++ [ev] |}).

(** A pure step that may raise. *)
Definition lift {A} (result : Outcome A) : M A := fun st => (result, st).

Notation "'let!' x ':=' m 'in' k" := (bind m (fun x => k))
  (at level 10, x name, m at level 100, k at level 200).
Notation "'do!' m 'in' k" := (bind m (fun _ => k))
  (at level 10, m at level 100, k at level 200).

(** Number of calls to the LLM, and to the collection's [query], in a trace. *)
Definition is_llm_invoke (ev : Event) : bool :=
  match ev with EvLLMInvoke _ => true | _ => false end.

Definition is_collection_query (ev : Event) : bool :=
  match ev with EvCollectionQuery _ _ _ => true | _ => false end.

Definition count_events (p : Event -> bool) (t : list Event) : nat :=
  List.length (List.filter p t).

(** ** The data that crosses the component boundaries *)

(** A field of the dictionary the collection's [query] returns: the key may be
    missing, may hold [None], or holds one row per query embedding. *)
Inductive Field (A : Type) : Type :=
| Absent
| PyNone
| Rows (rows : list (list A)).
Arguments Absent {A}.
Arguments PyNone {A}.
Arguments Rows {A} rows.

Record ChromaResult : Type := mkChromaResult {
  documents : Field string;
  metadatas : Field (option Metadata);
  distances : Field (option float)
}.

(** What [llm.invoke] returns: [content] is the attribute when the object has
    one, [str_response] is [str(response)]. *)
Record Response : Type := mkResponse {
  response_content : option string;
  str_response : string
}.

(** [config/settings.py] *)
Record Settings : Type := mkSettings {
  embedding_model : string;
  openai_api_key : option string;
  model_name : string;
  top_k : Z;
  score_threshold : float
}.

Definition default_settings : Settings :=
  {| embedding_model := "all-MiniLM-L6-v2";
     openai_api_key := None;
     model_name := "gpt-4o-mini";
     top_k := 5;
     score_threshold := 0.7 |}.

(** The external collaborators. *)
Record Env : Type := mkEnv {
  settings : Settings;
  collection_name : string;
  collection_query : list Embedding -> Z -> list string -> Outcome ChromaResult;
  collection_count : Outcome Z;
  SentenceTransformer : string -> Outcome unit;
  encode : string -> Outcome Embedding;
  ChatOpenAI : string -> Z -> Outcome unit;
  llm_invoke : string -> Outcome Response
}.

(** A retrieved passage, the dictionary built by [search]. [content] is read
    with [doc["content"]]; the other keys are read with [doc.get(key, default)],
    so they may be missing. [distance] may hold [None]. *)
Module Doc.
Record t : Type := mk {
  content : string;
  metadata : option Metadata;
  score : option float;
  distance : option (option float)
}.
End Doc.

(** An entry of [sources] in the result of [query]. *)
Module Source.
Record t : Type := mk {
  content_preview : string;
  metadata : Metadata;
  score : float;
  distance : option float
}.
End Source.

(** The dictionary returned by [query]. [answer], [sources] and [context_used]
    are keys of every result; [num_sources] and [error] are [None] when the
    key is missing. *)
Module QueryResult.
Record t : Type := mk {
  answer : string;
  sources : list Source.t;
  context_used : string;
  num_sources : option nat;
  error : option string
}.
End QueryResult.

(** [sample_data] of [get_collection_info]. *)
Record SampleData : Type := mkSampleData {
  sample_content_preview : string;
  metadata_keys : list string
}.

(** The dictionary returned by [get_collection_info]: the record of a
    connected collection ([sample_data] holds a dictionary or [None]) or the
    error record. *)
Inductive CollectionInfo : Type :=
| InfoConnected (name : string) (count : Z) (status : string)
                (sample_data : option SampleData)
| InfoError (error : string) (status : string) (name : string).

(** [text[:limit] + "..." if len(text) > limit else text] *)
Definition preview (limit : nat) (text : string) : string :=
  if (limit <? String.length text)%nat
  then substring 0 limit text +:+ "..."
  else text.

(** ** [src/retrieval/vector_store.py] *)

Module ChromaVectorStore.
Section WithEnv.
Variable env : Env.

Definition _get_embedding_model : M unit :=
  fun st =>
    if _embedding_model st then (Return tt, st)
    else
      (let! _ := call (EvSentenceTransformer (embedding_model (settings env)))
                      (SentenceTransformer env (embedding_model (settings env))) in
       fun st' =>
         (Return tt,
          {| _embedding_model := true; _llm := _llm st';
             trace := trace st' |})) st.

(** [results.get(key, [[]])[0]] *)
Definition get_first {A} (field : Field A) : Outcome (list A) :=
  match field with
  | Absent => Return []
  | PyNone => Raise "'NoneType' object is not subscriptable"
  | Rows [] => Raise "list index out of range"
  | Rows (row :: _) => Return row
  end.

(** The loop over [zip(documents, metadatas, distances)]; [zip] stops at the
    end of the shortest row. *)
Fixpoint format_results (documents : list string)
         (metadatas : list (option Metadata))
         (distances : list (option float)) : list Doc.t :=
  match documents, metadatas, distances with
  | doc :: documents', metadata :: metadatas', distance :: distances' =>
      let similarity_score :=
        match distance with
        | Some d => (1 - d)%float
        | None => 0%float
        end in
      {| Doc.content := doc;
         Doc.metadata := Some (default ∅ metadata);
         Doc.score := Some similarity_score;
         Doc.distance := Some distance |}
      :: format_results documents' metadatas' distances'
  | _, _, _ => []
  end.

Definition search (query : string) (k : option Z)
           (score_threshold : option float) : M (list Doc.t) :=
  let k :=
    match k with
    | Some n => if n =? 0 then top_k (settings env) else n
    | None => top_k (settings env)
    end in
  try_except
    (do! _get_embedding_model in
     let! embedding := call (EvEncode query) (encode env query) in
     let include := ["documents"; "metadatas"; "distances"] in
     let! results := call (EvCollectionQuery [embedding] k include)
                          (collection_query env [embedding] k include) in
     let! documents := lift (get_first (documents results)) in
     let! metadatas := lift (get_first (metadatas results)) in
     let! distances := lift (get_first (distances results)) in
     ret (format_results documents metadatas distances))
    (fun e =>
       raise ("Failed to search collection '" +:+ collection_name env
              +:+ "': " +:+ e)).

(** [sample_results[key]] *)
Definition getitem {A} (key : string) (field : Field A)
  : Outcome (option (list (list A))) :=
  match field with
  | Absent => Raise ("'" +:+ key +:+ "'")
  | PyNone => Return None
  | Rows rows => Return (Some rows)
  end.

(** [value[0]] on what [getitem] returned *)
Definition item0 {A} (value : option (list (list A))) : Outcome (list A) :=
  match value with
  | None => Raise "'NoneType' object is not subscriptable"
  | Some [] => Raise "list index out of range"
  | Some (row :: _) => Return row
  end.

(** The body of the inner [try] of [get_collection_info]; the keys of the
    metadata are listed in the order of the map. *)
Definition sample (sample_results : ChromaResult) : Outcome (option SampleData) :=
  match getitem "documents" (documents sample_results) with
  | Raise e => Raise e
  | Return None | Return (Some []) | Return (Some ([] :: _)) => Return None
  | Return (Some ((sample_doc :: _) :: _)) =>
      match getitem "metadatas" (metadatas sample_results) with
      | Raise e => Raise e
      | Return value =>
          match item0 value with
          | Raise e => Raise e
          | Return row =>
              let sample_metadata :=
                match row with
                | [] => Some ∅
                | m :: _ => m
                end in
              Return (Some
                {| sample_content_preview := preview 100 sample_doc;
                   metadata_keys :=
                     match sample_metadata with
                     | Some m => (map_to_list m).*1
                     | None => []
                     end |})
          end
      end
  end.

Definition get_collection_info : M CollectionInfo :=
  try_except
    (let! count := call EvCollectionCount (collection_count env) in
     let! sample_data :=
       (if 0 <? count then
          try_except
            (do! _get_embedding_model in
             let! embedding := call (EvEncode "sample") (encode env "sample") in
             let include := ["documents"; "metadatas"] in
             let! sample_results :=
               call (EvCollectionQuery [embedding] 1 include)
                    (collection_query env [embedding] 1 include) in
             lift (sample sample_results))
            (fun _ => ret None)
        else ret None) in
     ret (InfoConnected (collection_name env) count "connected" sample_data))
    (fun e => ret (InfoError e "error" (collection_name env))).

End WithEnv.
End ChromaVectorStore.

(** ** [src/prompts/templates.py] *)

(** The lines of [BORGES_EXPERT_TEMPLATE] before the [{context}] slot. *)
Definition BORGES_EXPERT_TEMPLATE_head : list string :=
  [ "You are The Librarian, an expert on the works of Jorge Luis Borges. You have access to a vast collection of his stories and possess deep knowledge of his themes, symbolism, and literary techniques.";
    "";
    "Your personality and approach:";
    "- Speak with the erudite yet accessible voice befitting a scholar of Borges";
    "- Draw connections between stories, themes, and philosophical concepts";
    "- Reference specific passages when relevant to illuminate your points";
    "- Embrace the labyrinthine nature of knowledge that Borges so loved";
    "- Be precise in your literary analysis while remaining engaging";
    "";
    "When answering questions:";
    "1. Ground your responses in the retrieved text passages";
    "2. Provide specific examples and quotations when possible";
    "3. Explain the broader significance within Borges' literary universe";
    "4. Make connections to recurring Borgesian themes (infinity, mirrors, labyrinths, time, identity)";
    "";
    "Context from Borges' stories:" ].

(** [BORGES_PROMPT.format(context=context, question=question)] *)
Definition BORGES_PROMPT_format (context question : string) : string :=
  join nl (BORGES_EXPERT_TEMPLATE_head
           ++ [ context; ""; "Question: " +:+ question; "";
                "Your response as The Librarian:" ]).

(** ** [src/retrieval/chains.py] *)

Module BorgesRAGChain.

Definition placeholder : string :=
  "No relevant passages found in the collection.".

Definition no_results_answer : string :=
  "I couldn't find relevant passages in the Borges collection to answer your question. Could you try rephrasing or asking about a different aspect of his work?".

Definition apology (e : string) : string :=
  "I encountered an error while processing your question: " +:+ e
  +:+ ". Please try again.".

(** The annotation of the source of a passage. *)
Definition story_info (metadata : Metadata) : string :=
  match metadata !! "story_title" with
  | Some title => " (from '" +:+ title +:+ "')"
  | None =>
      match metadata !! "source" with
      | Some source => " (from " +:+ source +:+ ")"
      | None => ""
      end
  end.

(** What follows the number in the block of a passage. *)
Definition block_body (doc : Doc.t) : string :=
  let content := Doc.content doc in
  let metadata := default ∅ (Doc.metadata doc) in
  let score := default 0%float (Doc.score doc) in
  story_info metadata +:+ " [Relevance: " +:+ format_3f score +:+ "]:"
  +:+ nl +:+ content.

Definition block (i : nat) (doc : Doc.t) : string :=
  "Passage " +:+ str_nat i +:+ block_body doc.

(** The loop [for i, doc in enumerate(documents, 1)], from index [i] on, with
    the list [context_parts] built so far. *)
Fixpoint format_loop (i : nat) (documents : list Doc.t)
         (context_parts : list string) : list string :=
  match documents with
  | [] => context_parts
  | doc :: rest => format_loop (S i) rest (context_parts ++ [block i doc])
  end.

Definition _format_context (documents : list Doc.t) : string :=
  match documents with
  | [] => placeholder
  | _ => join (nl +:+ nl) (format_loop 1 documents [])
  end.

Definition source_info (doc : Doc.t) : Source.t :=
  {| Source.content_preview := preview 200 (Doc.content doc);
     Source.metadata := default ∅ (Doc.metadata doc);
     Source.score := default 0%float (Doc.score doc);
     Source.distance := default (Some 0%float) (Doc.distance doc) |}.

Definition no_results : QueryResult.t :=
  {| QueryResult.answer := no_results_answer;
     QueryResult.sources := [];
     QueryResult.context_used := "";
     QueryResult.num_sources := Some 0%nat;
     QueryResult.error := None |}.

Definition error_result (e : string) : QueryResult.t :=
  {| QueryResult.answer := apology e;
     QueryResult.sources := [];
     QueryResult.context_used := "";
     QueryResult.num_sources := None;
     QueryResult.error := Some e |}.

Section WithEnv.
Variable env : Env.

Definition _get_llm : M unit :=
  fun st =>
    if _llm st then (Return tt, st)
    else
      match openai_api_key (settings env) with
      | None | Some EmptyString =>
          (Raise "OpenAI API key not provided", st)
      | Some _ =>
          (let! _ := call (EvChatOpenAI (model_name (settings env)) 1000)
                          (ChatOpenAI env (model_name (settings env)) 1000) in
           fun st' =>
             (Return tt,
              {| _embedding_model := _embedding_model st'; _llm := true;
                 trace := trace st' |})) st
      end.

(** The body of the [try] of [query]. *)
Definition query_body (question : string) : M QueryResult.t :=
  let! documents := ChromaVectorStore.search env question None None in
  match documents with
  | [] => ret no_results
  | _ =>
      let context := _format_context documents in
      do! _get_llm in
      let formatted_prompt := BORGES_PROMPT_format context question in
      let! response := call (EvLLMInvoke formatted_prompt)
                            (llm_invoke env formatted_prompt) in
      let answer :=
        match response_content response with
        | Some content => content
        | None => str_response response
        end in
      let sources := map source_info documents in
      ret {| QueryResult.answer := answer;
             QueryResult.sources := sources;
             QueryResult.context_used := context;
             QueryResult.num_sources := Some (List.length documents);
             QueryResult.error := None |}
  end.

Definition query (question : string) : M QueryResult.t :=
  try_except (query_body question) (fun e => ret (error_result e)).

End WithEnv.
End BorgesRAGChain.

(** ** [app.py] *)

Definition not_initialized_message : string :=
  "❌ System not properly initialized. Please check ChromaDB connection.".

Definition prompting_message : string :=
  "Please ask me something about Jorge Luis Borges' works.".

(** [rag_chain] is the module-level chain, [None] when the start-up failed;
    the chain is determined by the collaborators it was built on. *)
Definition chat_with_librarian (rag_chain : option Env) (message : string)
           (history : list (string * string)) : M string :=
  match rag_chain with
  | None => ret not_initialized_message
  | Some env =>
      try_except
        (if negb (truthy (strip message)) then ret prompting_message
         else
           let! result := BorgesRAGChain.query env message in
           match QueryResult.error result with
           | Some e => ret ("I apologize, but I encountered an issue: " +:+ e)
           | None => ret (QueryResult.answer result)
           end)
        (fun _ =>
           ret "I'm sorry, but I encountered an unexpected error. Please try again.")
  end.

(** ** Auxiliary notions for the statements *)

(** The value of [k] that reaches the collection: [k or settings.top_k]. *)
Definition effective_k (env : Env) (k : option Z) : Z :=
  match k with
  | Some n => if n =? 0 then top_k (settings env) else n
  | None => top_k (settings env)
  end.

(** What a computation adds to the trace contains no event satisfying [p]. *)
Definition adds_no {A} (p : Event -> bool) (m : M A) : Prop :=
  forall st o st', m st = (o, st') ->
    exists evs, trace st' = trace st ++ evs /\ count_events p evs = 0%nat.

(** The call that builds the embedding model, made when the model is not
    loaded yet. *)
Definition model_events (env : Env) (st : State) : list Event :=
  if _embedding_model st then []
  else [EvSentenceTransformer (embedding_model (settings env))].

Definition is_sentence_transformer (ev : Event) : bool :=
  match ev with EvSentenceTransformer _ => true | _ => false end.

Definition is_chat_openai (ev : Event) : bool :=
  match ev with EvChatOpenAI _ _ => true | _ => false end.

(** The message of the [RuntimeError] raised by [search] around [cause]. *)
Definition search_failure (env : Env) (cause : string) : string :=
  "Failed to search collection '" +:+ collection_name env +:+ "': " +:+ cause.

(** The call that builds the LLM client, made when there is none yet. *)
Definition llm_events (env : Env) (st : State) : list Event :=
  if _llm st then [] else [EvChatOpenAI (model_name (settings env)) 1000].

(** [not settings.openai_api_key] *)
Definition no_api_key (cfg : Settings) : Prop :=
  openai_api_key cfg = None \/ openai_api_key cfg = Some "".

(** ** [src/utils/__init__.py] *)

(** [text[:n]] for an integer [n] of either sign: a negative [n] counts from
    the end. *)
Definition slice_to (n : Z) (text : string) : string :=
  if 0 <=? n then substring 0 (Z.to_nat n) text
  else substring 0 (Z.to_nat (Z.of_nat (String.length text) + n)) text.

(** The defaults of the source are [max_length = 200] and [suffix = "..."]. *)
Definition truncate_text (text : string) (max_length : Z) (suffix : string)
  : string :=
  if Z.of_nat (String.length text) <=? max_length then text
  else slice_to (max_length - Z.of_nat (String.length suffix)) text +:+ suffix.

(** [s.split()]: the maximal runs of characters that are not whitespace. *)
Fixpoint split (s : string) : list string :=
  match s with
  | EmptyString => []
  | String c rest =>
      if isspace c then split rest
      else
        match rest with
        | EmptyString => [String c EmptyString]
        | String c' _ =>
            if isspace c' then String c EmptyString :: split rest
            else
              match split rest with
              | w :: ws => String c w :: ws
              | [] => [String c EmptyString]
              end
        end
  end.

Definition clean_query (query : string) : string :=
  let cleaned := join " " (split (strip query)) in
  cleaned.

(** The entry [format_metadata] shows for a key; [key.title()] is spelled out
    for the two keys it is applied to. *)
Definition formatted_item (key value : string) : option string :=
  if String.eqb key "story_title" then Some ("Story: " +:+ value)
  else if String.eqb key "source" then Some ("Source: " +:+ value)
  else if String.eqb key "page" then Some ("Page: " +:+ value)
  else if String.eqb key "chapter" then Some ("Chapter: " +:+ value)
  else None.

(** The loop over [metadata.items()], in the order of insertion, with the
    list [formatted_items] built so far. *)
Fixpoint format_items (items : list (string * string))
         (formatted_items : list string) : list string :=
  match items with
  | [] => formatted_items
  | (key, value) :: rest =>
      match formatted_item key value with
      | Some item => format_items rest (formatted_items ++ [item])
      | None => format_items rest formatted_items
      end
  end.

(** The dictionary is the list of its items in the order of insertion. *)
Definition format_metadata (metadata : list (string * string)) : string :=
  match metadata with
  | [] => "No metadata available"
  | _ =>
      match format_items metadata [] with
      | [] => "Basic metadata"
      | formatted_items => join " | " formatted_items
      end
  end.

(** A word: not empty, and without whitespace. *)
Fixpoint whitespace_free (s : string) : bool :=
  match s with
  | EmptyString => true
  | String c rest => negb (isspace c) && whitespace_free rest
  end.

Definition word (w : string) : Prop :=
  w <> "" /\ whitespace_free w = true.

(** The keys [format_metadata] shows. *)
Definition shown_key (key : string) : bool :=
  String.eqb key "story_title" || String.eqb key "source"
  || String.eqb key "page" || String.eqb key "chapter".

(** The first character of what [format_metadata] joins. *)
Definition starts_with_label (s : string) : Prop :=
  exists c rest, s = String c rest /\ (c = "S" \/ c = "P" \/ c = "C")%char.

(** ** [app.py]: the status functions *)

(** [format(n, ',')] on an integer: the digits in groups of three. *)
Fixpoint group_thousands (fuel : nat) (n : N) : string :=
  match fuel with
  | O => str_N n
  | S fuel' =>
      if (n <? 1000)%N then str_N n
      else
        let low := Z.of_N (n mod 1000) in
        group_thousands fuel' (n / 1000) +:+ "," +:+ digit (low / 100)
        +:+ digit (low / 10 mod 10) +:+ digit (low mod 10)
  end.

Definition format_thousands (n : Z) : string :=
  signed (n <? 0)
    (group_thousands (S (N.to_nat (N.log2 (Z.abs_N n)))) (Z.abs_N n)).

(** [vector_store] is the module-level store, [None] when the start-up
    failed; [storage] is [settings.chroma_persist_directory]. *)
Definition get_collection_status (vector_store : option Env)
           (storage : string) : M (string * string) :=
  match vector_store with
  | None => ret ("❌ Vector store not initialized", "error")
  | Some env =>
      try_except
        (let! info := ChromaVectorStore.get_collection_info env in
         match info with
         | InfoError e _ _ => ret ("❌ Collection Error: " +:+ e, "error")
         | InfoConnected name count status sample_data =>
             let status_msg :=
               "✅ Connected to '" +:+ name +:+ "' collection" +:+ nl
               +:+ "📊 Documents: " +:+ format_thousands count +:+ nl
               +:+ "💾 Storage: " +:+ storage +:+ nl
               +:+ "📄 Status: " +:+ status in
             let status_msg :=
               match sample_data with
               | Some sample =>
                   match metadata_keys sample with
                   | [] => status_msg
                   | keys =>
                       status_msg +:+ nl +:+ "🏷️ Metadata: "
                       +:+ join ", " keys
                   end
               | None => status_msg
               end in
             ret (status_msg, "success")
         end)
        (fun e => ret ("❌ Status Check Failed: " +:+ e, "error"))
  end.

(** [doc[key]] on a key that may be missing. *)
Definition require {A} (key : string) (value : option A) : Outcome A :=
  match value with
  | Some v => Return v
  | None => Raise ("'" +:+ key +:+ "'")
  end.

Definition test_search_functionality (vector_store : option Env)
  : M (string * string) :=
  match vector_store with
  | None => ret ("❌ Vector store not initialized", "error")
  | Some env =>
      try_except
        (let test_query := "Emma Zunz" in
         let! results :=
           ChromaVectorStore.search env test_query (Some 3) None in
         match results with
         | [] =>
             ret ("⚠️ Search returned no results for '" +:+ test_query
                  +:+ "'", "warning")
         | first :: _ =>
             let! top_score := lift (require "score" (Doc.score first)) in
             ret ("✅ Search Test Successful" +:+ nl
                  +:+ "🔍 Query: '" +:+ test_query +:+ "'" +:+ nl
                  +:+ "📊 Results: " +:+ str_nat (List.length results)
                  +:+ " documents found" +:+ nl
                  +:+ "🎯 Top score: " +:+ format_3f top_score +:+ nl
                  +:+ "📝 Preview: " +:+ substring 0 100 (Doc.content first)
                  +:+ "...", "success")
         end)
        (fun e => ret ("❌ Search Test Failed: " +:+ e, "error"))
  end.

(** The status type for an outcome of the search. *)
Definition search_status (outcome : Outcome (list Doc.t)) : string :=
  match outcome with
  | Return [] => "warning"
  | Return (_ :: _) => "success"
  | Raise _ => "error"
  end.

(** ** [BorgesVectorStore.create] and the start of [app.py] *)

(** The collection object of the client: its name and its two methods. *)
Record Collection : Type := mkCollection {
  chroma_name : string;
  chroma_query : list Embedding -> Z -> list string -> Outcome ChromaResult;
  chroma_count : Outcome Z
}.

(** The client library: opening the storage at a path, then listing and
    fetching the collections stored there. These calls are not part of the
    trace. *)
Record Chroma : Type := mkChroma {
  PersistentClient : string -> Outcome unit;
  list_collections : string -> Outcome (list string);
  get_collection : string -> string -> Outcome Collection
}.

(** The two settings of [config/settings.py] about the storage. *)
Record Storage : Type := mkStorage {
  chroma_persist_directory : string;
  chroma_collection_name : string
}.

Definition default_storage : Storage :=
  {| chroma_persist_directory := "./chroma_db";
     chroma_collection_name := "borges_stories" |}.

(** [value or fallback] on an optional string. *)
Definition or_setting (value : option string) (fallback : string) : string :=
  match value with
  | Some (String c rest) => String c rest
  | Some EmptyString | None => fallback
  end.

(** The collaborators of a store built on [collection]; [base] gives the
    settings, the embedding model and the LLM. *)
Definition with_collection (base : Env) (collection : Collection) : Env :=
  {| settings := settings base;
     collection_name := chroma_name collection;
     collection_query := chroma_query collection;
     collection_count := chroma_count collection;
     SentenceTransformer := SentenceTransformer base;
     encode := encode base;
     ChatOpenAI := ChatOpenAI base;
     llm_invoke := llm_invoke base |}.

(** [ChromaVectorStore.__init__]: no embedding model yet. *)
Definition new_vector_store : M unit :=
  fun st =>
    (Return tt,
     {| _embedding_model := false; _llm := _llm st; trace := trace st |}).

(** [BorgesRAGChain.__init__]: no LLM client yet. *)
Definition new_chain : M unit :=
  fun st =>
    (Return tt,
     {| _embedding_model := _embedding_model st; _llm := false;
        trace := trace st |}).

(** The message of the [ConnectionError] raised by [create]. *)
Definition connection_failure (directory name cause : string) : string :=
  "Could not connect to ChromaDB persistent storage at " +:+ directory
  +:+ " or access collection '" +:+ name +:+ "'. Error: " +:+ cause +:+ ".".

Module BorgesVectorStore.
Section WithLibraries.
Variable chroma : Chroma.
Variable base : Env.
Variable storage : Storage.

(** [info['count']], read for the log line. *)
Definition info_count (info : CollectionInfo) : Outcome Z :=
  match info with
  | InfoConnected _ count _ _ => Return count
  | InfoError _ _ _ => Raise "'count'"
  end.

Definition create (persist_directory collection_name : option string)
  : M Env :=
  let persist_directory :=
    or_setting persist_directory (chroma_persist_directory storage) in
  let collection_name :=
    or_setting collection_name (chroma_collection_name storage) in
  try_except
    (do! lift (PersistentClient chroma persist_directory) in
     let! collections := lift (list_collections chroma persist_directory) in
     let! chroma_collection :=
       lift (get_collection chroma persist_directory collection_name) in
     let vector_store := with_collection base chroma_collection in
     do! new_vector_store in
     let! info := ChromaVectorStore.get_collection_info vector_store in
     do! lift (info_count info) in
     ret vector_store)
    (fun e =>
       raise (connection_failure persist_directory collection_name e)).

(** The initialisation at the top of [app.py]: the pair
    [(vector_store, rag_chain)]. *)
Definition initialize : M (option Env * option Env) :=
  try_except
    (let! vector_store := create None None in
     do! new_chain in
     ret (Some vector_store, Some vector_store))
    (fun _ => ret (None, None)).

End WithLibraries.
End BorgesVectorStore.

(** ** Stub collaborators used in the examples *)

Definition init_state : State :=
  {| _embedding_model := false; _llm := false; trace := [] |}.

Definition configured_settings : Settings :=
  {| embedding_model := "all-MiniLM-L6-v2";
     openai_api_key := Some "sk-test";
     model_name := "gpt-4o-mini";
     top_k := 5;
     score_threshold := 0.7 |}.

Definition emma_zunz : Metadata := {[ "story_title" := "Emma Zunz" ]}.

Definition three_passages : ChromaResult :=
  {| documents := Rows [["On the fourteenth of January"; "The letter"; "She slept"]];
     metadatas := Rows [[Some emma_zunz; None; Some {[ "source" := "ficciones.txt" ]}]];
     distances := Rows [[Some 0.1; Some 0.3; Some 0.5]]%float |}.

Definition no_passages : ChromaResult :=
  {| documents := Rows [[]]; metadatas := Rows [[]]; distances := Rows [[]] |}.

(** A collection answering every query with [results], in front of an
    embedding model and an LLM that answer. *)
Definition stub_env (cfg : Settings) (results : Outcome ChromaResult)
           (count : Outcome Z) : Env :=
  {| settings := cfg;
     collection_name := "borges_stories";
     collection_query := fun _ _ _ => results;
     collection_count := count;
     SentenceTransformer := fun _ => Return tt;
     encode := fun _ => Return [0.25; 0.5]%float;
     ChatOpenAI := fun _ _ => Return tt;
     llm_invoke := fun _ =>
       Return {| response_content := Some "In the labyrinth.";
                 str_response := "AIMessage" |} |}.

Definition three_env : Env :=
  stub_env configured_settings (Return three_passages) (Return 3).

Definition empty_env : Env :=
  stub_env configured_settings (Return no_passages) (Return 0).

Definition failing_env : Env :=
  stub_env configured_settings (Raise "connection lost") (Return 3).

(** The settings as they are without an [.env] file: no API key. *)
Definition no_key_env : Env :=
  stub_env default_settings (Return three_passages) (Return 3).

Definition long_content : string :=
  "0123456789012345678901234567890123456789012345678901234567890123456789012345678901234567890123456789"
  +:+
  "0123456789012345678901234567890123456789012345678901234567890123456789012345678901234567890123456789"
  +:+ "tail".

Definition long_env : Env :=
  stub_env configured_settings
    (Return {| documents := Rows [[long_content; "short"]];
               metadatas := Rows [[None; None]];
               distances := Rows [[Some 0.25; None]]%float |})
    (Return 2).

Definition long_docs : list Doc.t :=
  ChromaVectorStore.format_results [long_content; "short"] [None; None]
    [Some 0.25; None]%float.

Definition long_result : QueryResult.t :=
  {| QueryResult.answer := "In the labyrinth.";
     QueryResult.sources := map BorgesRAGChain.source_info long_docs;
     QueryResult.context_used := BorgesRAGChain._format_context long_docs;
     QueryResult.num_sources := Some 2%nat;
     QueryResult.error := None |}.

Definition three_docs : list Doc.t :=
  ChromaVectorStore.format_results
    ["On the fourteenth of January"; "The letter"; "She slept"]
    [Some emma_zunz; None; Some {[ "source" := "ficciones.txt" ]}]
    [Some 0.1; Some 0.3; Some 0.5]%float.

(** The truncation law between a passage and its entry in [sources]. *)
Definition truncated (doc : Doc.t) (src : Source.t) : Prop :=
  let content := Doc.content doc in
  let shown := Source.content_preview src in
  ((200 < String.length content)%nat ->
     String.length shown = 203%nat
     /\ shown = substring 0 200 content +:+ "...")
  /\ ((String.length content <= 200)%nat -> shown = content).

(** The annotation of a passage as the specification words it: the story
    title when the metadata has one, else the source when it has one, else
    nothing. *)
Definition annotation_of (metadata : Metadata) (annotation : string) : Prop :=
  (forall title, metadata !! "story_title" = Some title ->
     annotation = " (from '" +:+ title +:+ "')")
  /\ (metadata !! "story_title" = None ->
      forall source, metadata !! "source" = Some source ->
        annotation = " (from " +:+ source +:+ ")")
  /\ (metadata !! "story_title" = None -> metadata !! "source" = None ->
      annotation = "").

(** The collaborators of [three_env] with an embedding model that cannot be
    built. *)
Definition no_model_env : Env :=
  {| settings := configured_settings;
     collection_name := "borges_stories";
     collection_query := fun _ _ _ => Return three_passages;
     collection_count := Return 3;
     SentenceTransformer := fun _ => Raise "model not found";
     encode := fun _ => Return [0.25; 0.5]%float;
     ChatOpenAI := fun _ _ => Return tt;
     llm_invoke := fun _ =>
       Return {| response_content := Some "In the labyrinth.";
                 str_response := "AIMessage" |} |}.

(** A result with rows of unequal length and one without the documents. *)
Definition ragged_passages : ChromaResult :=
  {| documents := Rows [["first"; "second"; "third"]];
     metadatas := Rows [[None; Some emma_zunz]];
     distances := Rows [[Some 0.5; Some 0.25; None; None]]%float |}.

Definition ragged_env : Env :=
  stub_env configured_settings (Return ragged_passages) (Return 3).

Definition keyless_passages : ChromaResult :=
  {| documents := Absent;
     metadatas := Rows [[None]];
     distances := Rows [[Some 0.5]]%float |}.

Definition keyless_env : Env :=
  stub_env configured_settings (Return keyless_passages) (Return 1).

Definition loaded_state : State :=
  {| _embedding_model := true; _llm := true; trace := [] |}.

Definition count_failing_env : Env :=
  stub_env configured_settings (Return three_passages)
    (Raise "no such collection").

Definition long_sample_env : Env :=
  stub_env configured_settings
    (Return {| documents := Rows [[long_content]];
               metadatas := Rows [[Some emma_zunz]];
               distances := PyNone |})
    (Return 1).

Definition three_result : QueryResult.t :=
  {| QueryResult.answer := "In the labyrinth.";
     QueryResult.sources := map BorgesRAGChain.source_info three_docs;
     QueryResult.context_used := BorgesRAGChain._format_context three_docs;
     QueryResult.num_sources := Some 3%nat;
     QueryResult.error := None |}.

(** The state after the first query on [three_env]. *)
Definition three_state : State :=
  {| _embedding_model := true;
     _llm := true;
     trace := [EvSentenceTransformer "all-MiniLM-L6-v2";
               EvEncode "Emma Zunz";
               EvCollectionQuery [[0.25; 0.5]%float] 5
                 ["documents"; "metadatas"; "distances"];
               EvChatOpenAI "gpt-4o-mini" 1000;
               EvLLMInvoke
                 (BORGES_PROMPT_format
                    (BorgesRAGChain._format_context three_docs) "Emma Zunz")] |}.

(** The state after a search on [three_env]. *)
Definition searched_state : State :=
  {| _embedding_model := true;
     _llm := false;
     trace := [EvSentenceTransformer "all-MiniLM-L6-v2";
               EvEncode "Emma Zunz";
               EvCollectionQuery [[0.25; 0.5]%float] 5
                 ["documents"; "metadatas"; "distances"]] |}.

Definition borges_collection (count : Outcome Z) : Collection :=
  {| chroma_name := "borges_stories";
     chroma_query := fun _ _ _ => Return three_passages;
     chroma_count := count |}.

(** A storage holding one collection, whose [count()] gives [count]. *)
Definition stub_chroma (count : Outcome Z) : Chroma :=
  {| PersistentClient := fun _ => Return tt;
     list_collections := fun _ => Return ["borges_stories"];
     get_collection := fun _ name =>
       if String.eqb name "borges_stories"
       then Return (borges_collection count)
       else Raise ("Collection " +:+ name +:+ " does not exist.") |}.

(** * Properties *)

Example format_3f_examples :
  map format_3f [0.9; 0.7; 0.5; 0; 0.0625; 0.1875; 1234.5678; (-0.0001); 1]%float
  = ["0.900"; "0.700"; "0.500"; "0.000"; "0.062"; "0.188"; "1234.568";
     "-0.000"; "1.000"].
Proof. vm_compute. reflexivity. Qed.

(** With a finite score the text ends in a point and three digits. *)
Lemma format_3f_three_decimals x s m e :
  Prim2SF x = S754_finite s m e ->
  exists whole a b c,
    format_3f x
    = signed s (whole +:+ "." +:+ digit a +:+ digit b +:+ digit c)
    /\ 0 <= a <= 9 /\ 0 <= b <= 9 /\ 0 <= c <= 9.
Proof.
  intros Hx. unfold format_3f. rewrite Hx. unfold fixed3.
  set (f := thousandths m e mod 1000).
  assert (0 <= f < 1000) by (apply Z.mod_pos_bound; lia).
  exists (str_N (Z.to_N (thousandths m e / 1000))), (f / 100), (f / 10 mod 10),
    (f mod 10).
  split; [reflexivity|].
  repeat split; try (apply Z.mod_pos_bound; lia); try (apply Z.div_pos; lia).
  - apply Z.lt_succ_r. apply Z.div_lt_upper_bound; lia.
  - pose proof (Z.mod_pos_bound (f / 10) 10). lia.
  - pose proof (Z.mod_pos_bound f 10). lia.
Qed.

(** ** The trace *)

Lemma count_events_app p (t1 t2 : list Event) :
  count_events p (t1 ++ t2) = (count_events p t1 + count_events p t2)%nat.
Proof.
  unfold count_events. rewrite List.filter_app, List.length_app. reflexivity.
Qed.

Lemma adds_no_count {A} p (m : M A) st o st' :
  adds_no p m -> m st = (o, st') ->
  count_events p (trace st') = count_events p (trace st).
Proof.
  intros Hm Hrun. destruct (Hm _ _ _ Hrun) as (evs & -> & Hevs).
  rewrite count_events_app, Hevs. lia.
Qed.

Lemma adds_no_ret {A} p (a : A) : adds_no p (ret a).
Proof.
  intros st o st' [= <- <-]. exists []. rewrite app_nil_r. auto.
Qed.

Lemma adds_no_raise {A} p e : adds_no p (@raise A e).
Proof.
  intros st o st' [= <- <-]. exists []. rewrite app_nil_r. auto.
Qed.

Lemma adds_no_lift {A} p (r : Outcome A) : adds_no p (lift r).
Proof.
  intros st o st' [= <- <-]. exists []. rewrite app_nil_r. auto.
Qed.

Lemma adds_no_call {A} p ev (r : Outcome A) :
  p ev = false -> adds_no p (call ev r).
Proof.
  intros Hev st o st' [= <- <-]. exists [ev]. split; [reflexivity|].
  unfold count_events. simpl. rewrite Hev. reflexivity.
Qed.

Lemma adds_no_bind {A B} p (m : M A) (f : A -> M B) :
  adds_no p m -> (forall a, adds_no p (f a)) -> adds_no p (bind m f).
Proof.
  intros Hm Hf st o st'. unfold bind.
  destruct (m st) as [[a|e] st1] eqn:Hrun; intros Hk.
  - destruct (Hm _ _ _ Hrun) as (evs1 & E1 & C1).
    destruct (Hf a _ _ _ Hk) as (evs2 & E2 & C2).
    exists (evs1 ++ evs2). rewrite E2, E1, <- app_assoc.
    rewrite count_events_app, C1, C2. auto.
  - injection Hk as <- <-. eauto.
Qed.

Lemma adds_no_try_except {A} p (m : M A) (h : string -> M A) :
  adds_no p m -> (forall e, adds_no p (h e)) -> adds_no p (try_except m h).
Proof.
  intros Hm Hh st o st'. unfold try_except.
  destruct (m st) as [[a|e] st1] eqn:Hrun; intros Hk.
  - injection Hk as <- <-. eauto.
  - destruct (Hm _ _ _ Hrun) as (evs1 & E1 & C1).
    destruct (Hh e _ _ _ Hk) as (evs2 & E2 & C2).
    exists (evs1 ++ evs2). rewrite E2, E1, <- app_assoc.
    rewrite count_events_app, C1, C2. auto.
Qed.

Lemma adds_no_get_embedding_model p env :
  (forall model, p (EvSentenceTransformer model) = false) ->
  adds_no p (ChromaVectorStore._get_embedding_model env).
Proof.
  intros Hp st o st'. unfold ChromaVectorStore._get_embedding_model.
  destruct (_embedding_model st).
  - intros [= <- <-]. exists []. rewrite app_nil_r. auto.
  - revert st o st'.
    change (adds_no p
      (let! _ := call (EvSentenceTransformer (embedding_model (settings env)))
                      (SentenceTransformer env (embedding_model (settings env))) in
       fun st' => (Return tt,
          {| _embedding_model := true; _llm := _llm st'; trace := trace st' |}))).
    apply adds_no_bind; [apply adds_no_call, Hp|].
    intros _ st o st' [= <- <-]. exists []. simpl. rewrite app_nil_r. auto.
Qed.

Create HintDb trace.

#[local] Hint Resolve adds_no_ret adds_no_raise adds_no_lift adds_no_call
  adds_no_bind adds_no_try_except adds_no_get_embedding_model : trace.

(** [search] talks to the embedding model and to the collection only. *)
Lemma search_adds_no_llm_invoke env query k score_threshold :
  adds_no is_llm_invoke (ChromaVectorStore.search env query k score_threshold).
Proof.
  unfold ChromaVectorStore.search.
  apply adds_no_try_except; [|auto with trace].
  repeat (apply adds_no_bind; [auto with trace|intros ?]).
  auto with trace.
Qed.

(** ** [BorgesRAGChain.query] *)

Lemma is_substring_apology e : is_substring e (BorgesRAGChain.apology e).
Proof.
  exists "I encountered an error while processing your question: ",
         ". Please try again.".
  reflexivity.
Qed.

(** [query] returns a dictionary from every state: no exception leaves it. *)
Lemma query_returns env question st :
  exists r st', BorgesRAGChain.query env question st = (Return r, st').
Proof.
  unfold BorgesRAGChain.query, try_except.
  destruct (BorgesRAGChain.query_body env question st) as [[r|e] st'];
    unfold ret; eauto.
Qed.

(** C2: when [search] returns no passage, [query] returns the fixed
    no-results answer with an empty context, no sources and a source count of
    zero, and the trace holds no more LLM invocations than before the call. *)
Theorem query_empty_retrieval env question st st1 :
  ChromaVectorStore.search env question None None st = (Return [], st1) ->
  exists r,
    BorgesRAGChain.query env question st = (Return r, st1)
    /\ QueryResult.answer r = BorgesRAGChain.no_results_answer
    /\ QueryResult.context_used r = ""
    /\ QueryResult.sources r = []
    /\ QueryResult.num_sources r = Some 0%nat
    /\ count_events is_llm_invoke (trace st1)
       = count_events is_llm_invoke (trace st).
Proof.
  intros Hsearch. exists BorgesRAGChain.no_results.
  unfold BorgesRAGChain.query, BorgesRAGChain.query_body, try_except, bind.
  rewrite Hsearch. cbn. repeat split.
  eapply adds_no_count; [apply search_adds_no_llm_invoke|exact Hsearch].
Qed.

Lemma query_empty_retrieval_witness :
  exists r,
    BorgesRAGChain.query empty_env "Emma Zunz" init_state
    = (Return r, {| _embedding_model := true; _llm := false;
                    trace := [EvSentenceTransformer "all-MiniLM-L6-v2";
                              EvEncode "Emma Zunz";
                              EvCollectionQuery [[0.25; 0.5]%float] 5
                                ["documents"; "metadatas"; "distances"]] |})
    /\ QueryResult.answer r = BorgesRAGChain.no_results_answer
    /\ QueryResult.context_used r = ""
    /\ QueryResult.sources r = []
    /\ QueryResult.num_sources r = Some 0%nat
    /\ count_events is_llm_invoke
         [EvSentenceTransformer "all-MiniLM-L6-v2";
          EvEncode "Emma Zunz";
          EvCollectionQuery [[0.25; 0.5]%float] 5
            ["documents"; "metadatas"; "distances"]]
       = count_events is_llm_invoke [].
Proof.
  apply (query_empty_retrieval empty_env "Emma Zunz" init_state).
  reflexivity.
Defined.

(** The steps of [query] that can raise: the search, the construction of the
    LLM client and its invocation. *)
Lemma query_body_search_raises env question st e st1 :
  ChromaVectorStore.search env question None None st = (Raise e, st1) ->
  BorgesRAGChain.query_body env question st = (Raise e, st1).
Proof.
  intros Hsearch. unfold BorgesRAGChain.query_body, bind.
  rewrite Hsearch. reflexivity.
Qed.

Lemma query_body_get_llm_raises env question st docs st1 e st2 :
  ChromaVectorStore.search env question None None st = (Return docs, st1) ->
  docs <> [] ->
  BorgesRAGChain._get_llm env st1 = (Raise e, st2) ->
  BorgesRAGChain.query_body env question st = (Raise e, st2).
Proof.
  intros Hsearch Hne Hllm. unfold BorgesRAGChain.query_body, bind.
  rewrite Hsearch. destruct docs; [congruence|]. rewrite Hllm. reflexivity.
Qed.

Lemma query_body_invoke_raises env question st docs st1 st2 e :
  ChromaVectorStore.search env question None None st = (Return docs, st1) ->
  docs <> [] ->
  BorgesRAGChain._get_llm env st1 = (Return tt, st2) ->
  llm_invoke env
    (BORGES_PROMPT_format (BorgesRAGChain._format_context docs) question)
  = Raise e ->
  exists st3, BorgesRAGChain.query_body env question st = (Raise e, st3).
Proof.
  intros Hsearch Hne Hllm Hinvoke. unfold BorgesRAGChain.query_body, bind.
  rewrite Hsearch. destruct docs; [congruence|]. rewrite Hllm.
  unfold call. rewrite Hinvoke. eauto.
Qed.

(** A failure of the collection reaches [query] wrapped by [search]. *)
Lemma search_wraps_collection_failure env query k score_threshold st embedding e :
  SentenceTransformer env (embedding_model (settings env)) = Return tt ->
  encode env query = Return embedding ->
  collection_query env [embedding] (effective_k env k)
    ["documents"; "metadatas"; "distances"] = Raise e ->
  exists st',
    ChromaVectorStore.search env query k score_threshold st
    = (Raise ("Failed to search collection '" +:+ collection_name env
              +:+ "': " +:+ e), st').
Proof.
  intros Hmodel Hencode Hquery.
  unfold ChromaVectorStore.search, try_except, bind, call, lift, ret, raise,
    ChromaVectorStore._get_embedding_model, effective_k in *.
  destruct (_embedding_model st); cbn;
    rewrite ?Hmodel, Hencode; cbn; rewrite Hquery; eauto.
Qed.

(** C3: an exception raised inside the [try] of [query] does not leave
    [query]; the result carries the apology built around the message of the
    exception, which it contains, no sources, and the message under [error]. *)
Theorem query_exception_recovery env question st e st1 :
  BorgesRAGChain.query_body env question st = (Raise e, st1) ->
  exists r,
    BorgesRAGChain.query env question st = (Return r, st1)
    /\ QueryResult.answer r = BorgesRAGChain.apology e
    /\ is_substring e (QueryResult.answer r)
    /\ QueryResult.sources r = []
    /\ QueryResult.error r = Some e.
Proof.
  intros Hbody. exists (BorgesRAGChain.error_result e).
  unfold BorgesRAGChain.query, try_except. rewrite Hbody.
  cbn. repeat split. apply is_substring_apology.
Qed.

Lemma query_exception_recovery_witness :
  exists r,
    BorgesRAGChain.query failing_env "Emma Zunz" init_state
    = (Return r, {| _embedding_model := true; _llm := false;
                    trace := [EvSentenceTransformer "all-MiniLM-L6-v2";
                              EvEncode "Emma Zunz";
                              EvCollectionQuery [[0.25; 0.5]%float] 5
                                ["documents"; "metadatas"; "distances"]] |})
    /\ QueryResult.answer r
       = BorgesRAGChain.apology
           "Failed to search collection 'borges_stories': connection lost"
    /\ is_substring
         "Failed to search collection 'borges_stories': connection lost"
         (QueryResult.answer r)
    /\ QueryResult.sources r = []
    /\ QueryResult.error r
       = Some "Failed to search collection 'borges_stories': connection lost".
Proof.
  apply (query_exception_recovery failing_env "Emma Zunz" init_state).
  reflexivity.
Defined.


(** ** [ChromaVectorStore.search] *)

(** A search that returns has encoded the query, received a result from the
    collection and zipped the first rows of its three fields. *)
Lemma search_returns_inv env query k score_threshold st docs st' :
  ChromaVectorStore.search env query k score_threshold st = (Return docs, st') ->
  exists embedding results row_docs row_metas row_dists,
    encode env query = Return embedding
    /\ collection_query env [embedding] (effective_k env k)
         ["documents"; "metadatas"; "distances"] = Return results
    /\ ChromaVectorStore.get_first (documents results) = Return row_docs
    /\ ChromaVectorStore.get_first (metadatas results) = Return row_metas
    /\ ChromaVectorStore.get_first (distances results) = Return row_dists
    /\ docs = ChromaVectorStore.format_results row_docs row_metas row_dists.
Proof.
  unfold ChromaVectorStore.search, try_except, bind, call, lift, ret, raise,
    ChromaVectorStore._get_embedding_model, effective_k.
  intros H.
  destruct (_embedding_model st); cbn in H;
    repeat case_match; simplify_eq; cbn in *; simplify_eq;
    eexists _, _, _, _, _; repeat split; eauto.
Qed.

(** The score of a formatted passage against the raw distance at its
    position. *)
Lemma format_results_lookup row_docs row_metas row_dists i doc :
  ChromaVectorStore.format_results row_docs row_metas row_dists !! i = Some doc ->
  exists text meta d,
    row_docs !! i = Some text /\ row_metas !! i = Some meta
    /\ row_dists !! i = Some d
    /\ doc = {| Doc.content := text;
                Doc.metadata := Some (default ∅ meta);
                Doc.score := Some match d with
                                  | Some x => (1 - x)%float
                                  | None => 0%float
                                  end;
                Doc.distance := Some d |}.
Proof.
  revert row_metas row_dists i.
  induction row_docs as [|text row_docs IH];
    intros [|meta row_metas] [|d row_dists] i; cbn; try discriminate.
  destruct i as [|i]; cbn.
  - intros [= <-]. eauto 10.
  - apply IH.
Qed.

(** C4: every passage returned by [search] carries the raw distance the
    collection returned at its position, and its score is [1 - distance] when
    that distance is defined and [0] when it is [None]; a row of distances
    [0.1, 0.3, 0.5] gives the scores [0.9, 0.7, 0.5]. *)
Theorem search_score env query k score_threshold st docs st' :
  ChromaVectorStore.search env query k score_threshold st = (Return docs, st') ->
  (exists embedding results raw,
     collection_query env [embedding] (effective_k env k)
       ["documents"; "metadatas"; "distances"] = Return results
     /\ ChromaVectorStore.get_first (distances results) = Return raw
     /\ forall i doc, docs !! i = Some doc ->
          exists d, raw !! i = Some d
            /\ Doc.distance doc = Some d
            /\ Doc.score doc = Some match d with
                                    | Some x => (1 - x)%float
                                    | None => 0%float
                                    end)
  /\ map Doc.score
       (ChromaVectorStore.format_results ["a"; "b"; "c"] [None; None; None]
          [Some 0.1; Some 0.3; Some 0.5]%float)
     = [Some 0.9; Some 0.7; Some 0.5]%float.
Proof.
  intros Hsearch. split; [|reflexivity].
  destruct (search_returns_inv _ _ _ _ _ _ _ Hsearch)
    as (embedding & results & row_docs & row_metas & row_dists
        & _ & Hquery & _ & _ & Hdists & ->).
  exists embedding, results, row_dists. repeat split; [assumption..|].
  intros i doc Hdoc.
  destruct (format_results_lookup _ _ _ _ _ Hdoc)
    as (text & meta & d & _ & _ & Hd & ->).
  exists d. auto.
Qed.

Lemma search_score_witness :
  (exists embedding results raw,
     collection_query three_env [embedding] (effective_k three_env (Some 3))
       ["documents"; "metadatas"; "distances"] = Return results
     /\ ChromaVectorStore.get_first (distances results) = Return raw
     /\ forall i doc,
          ChromaVectorStore.format_results
            ["On the fourteenth of January"; "The letter"; "She slept"]
            [Some emma_zunz; None; Some {[ "source" := "ficciones.txt" ]}]
            [Some 0.1; Some 0.3; Some 0.5]%float !! i = Some doc ->
          exists d, raw !! i = Some d
            /\ Doc.distance doc = Some d
            /\ Doc.score doc = Some match d with
                                    | Some x => (1 - x)%float
                                    | None => 0%float
                                    end)
  /\ map Doc.score
       (ChromaVectorStore.format_results ["a"; "b"; "c"] [None; None; None]
          [Some 0.1; Some 0.3; Some 0.5]%float)
     = [Some 0.9; Some 0.7; Some 0.5]%float.
Proof.
  apply (search_score three_env "Emma Zunz" (Some 3) None init_state _
           {| _embedding_model := true; _llm := false;
              trace := [EvSentenceTransformer "all-MiniLM-L6-v2";
                        EvEncode "Emma Zunz";
                        EvCollectionQuery [[0.25; 0.5]%float] 3
                          ["documents"; "metadatas"; "distances"]] |}).
  reflexivity.
Defined.

(** C10: [score_threshold] is not read by [search]: two calls that differ in
    it only give the same outcome and leave the same state, hence the same
    trace of calls to the collection; passages scoring below a threshold that
    was passed are returned all the same. *)
Theorem search_ignores_score_threshold env query k t1 t2 st :
  ChromaVectorStore.search env query k t1 st
  = ChromaVectorStore.search env query k t2 st
  /\ (let (outcome, _) :=
        ChromaVectorStore.search three_env "Emma Zunz" (Some 3)
          (Some 0.7%float) init_state in
      match outcome with
      | Return docs => map Doc.score docs
      | Raise _ => []
      end) = [Some 0.9; Some 0.7; Some 0.5]%float.
Proof.
  split; reflexivity.
Qed.

(** ** The sources of [query] *)

Lemma length_substring_le n s :
  (n <= String.length s)%nat -> String.length (substring 0 n s) = n.
Proof.
  revert s. induction n as [|n IH]; intros [|c s]; cbn; intros Hle;
    try reflexivity; try lia.
  rewrite IH by lia. reflexivity.
Qed.

Lemma length_str_app s1 s2 :
  String.length (s1 +:+ s2) = (String.length s1 + String.length s2)%nat.
Proof.
  induction s1 as [|c s1 IH]; simpl; [reflexivity|]. rewrite IH. reflexivity.
Qed.

Lemma preview_long limit text :
  (limit < String.length text)%nat ->
  preview limit text = substring 0 limit text +:+ "..."
  /\ String.length (preview limit text) = (limit + 3)%nat.
Proof.
  intros Hlong. unfold preview.
  destruct (Nat.ltb_spec limit (String.length text)) as [_|Hle]; [|lia].
  cbv iota. split; [reflexivity|].
  rewrite length_str_app, length_substring_le by lia. reflexivity.
Qed.

Lemma preview_short limit text :
  (String.length text <= limit)%nat -> preview limit text = text.
Proof.
  intros Hshort. unfold preview.
  destruct (Nat.ltb_spec limit (String.length text)) as [Hlt|_]; [lia|].
  reflexivity.
Qed.

Lemma truncated_source_info doc : truncated doc (BorgesRAGChain.source_info doc).
Proof.
  split; cbn.
  - intros Hlong. destruct (preview_long 200 _ Hlong) as [-> Hlen].
    split; [|reflexivity].
    rewrite length_str_app, length_substring_le by lia. reflexivity.
  - apply preview_short.
Qed.

(** The results [query] can return, by the outcome of its steps. *)
Lemma query_cases env question st r st' :
  BorgesRAGChain.query env question st = (Return r, st') ->
  (exists e, BorgesRAGChain.query_body env question st = (Raise e, st')
             /\ r = BorgesRAGChain.error_result e)
  \/ (exists docs, ChromaVectorStore.search env question None None st
                   = (Return docs, st')
                   /\ docs = [] /\ r = BorgesRAGChain.no_results)
  \/ (exists docs st1 response,
        ChromaVectorStore.search env question None None st = (Return docs, st1)
        /\ docs <> []
        /\ llm_invoke env
             (BORGES_PROMPT_format (BorgesRAGChain._format_context docs) question)
           = Return response
        /\ r = {| QueryResult.answer :=
                    match response_content response with
                    | Some content => content
                    | None => str_response response
                    end;
                  QueryResult.sources := map BorgesRAGChain.source_info docs;
                  QueryResult.context_used := BorgesRAGChain._format_context docs;
                  QueryResult.num_sources := Some (List.length docs);
                  QueryResult.error := None |}).
Proof.
  unfold BorgesRAGChain.query, try_except.
  destruct (BorgesRAGChain.query_body env question st) as [[r0|e] st0] eqn:Hbody.
  - intros [= -> ->]. right.
    unfold BorgesRAGChain.query_body, bind in Hbody.
    destruct (ChromaVectorStore.search env question None None st)
      as [[docs|e] st1] eqn:Hsearch; [|discriminate].
    destruct docs as [|doc docs].
    + left. injection Hbody as <- <-. eauto.
    + right. exists (doc :: docs), st1.
      destruct (BorgesRAGChain._get_llm env st1) as [[[]|e] st2]; [|discriminate].
      unfold call, ret in Hbody.
      destruct (llm_invoke env _) as [response|e] eqn:Hllm; [|discriminate].
      injection Hbody as <- <-. exists response. repeat split; congruence.
  - intros [= <- <-]. left. eauto.
Qed.

(** Where [query] returns without [error], the count is the number of sources;
    the error result has no count. *)
Lemma query_num_sources env question st r st' :
  BorgesRAGChain.query env question st = (Return r, st') ->
  (QueryResult.error r = None ->
     QueryResult.num_sources r = Some (List.length (QueryResult.sources r)))
  /\ (QueryResult.error r <> None -> QueryResult.num_sources r = None).
Proof.
  intros Hq.
  destruct (query_cases _ _ _ _ _ Hq)
    as [(e & _ & ->)|[(docs & _ & _ & ->)|(docs & st1 & resp & _ & _ & _ & ->)]];
    cbn; split; try congruence.
  rewrite length_map. reflexivity.
Qed.

(** C1: with the default settings (no API key) and a collection that returns
    passages, [_get_llm] raises and [query] returns the error result, which
    has [sources] but no [num_sources] key to compare with its length. *)
Theorem query_error_result_lacks_num_sources :
  exists r st',
    BorgesRAGChain.query no_key_env "Emma Zunz" init_state = (Return r, st')
    /\ QueryResult.error r = Some "OpenAI API key not provided"
    /\ QueryResult.sources r = []
    /\ QueryResult.num_sources r = None
    /\ QueryResult.num_sources r
       <> Some (List.length (QueryResult.sources r)).
Proof.
  eexists _, _. split; [reflexivity|]. cbn. repeat split. discriminate.
Qed.

(** C5: on a call of [query] that returns without [error], the sources are in
    step with the passages [search] returned, and each preview is the content
    itself when the content has at most 200 characters, and otherwise its
    first 200 characters followed by three dots, 203 characters in all. *)
Theorem query_sources_truncated env question st docs st1 r st2 :
  ChromaVectorStore.search env question None None st = (Return docs, st1) ->
  BorgesRAGChain.query env question st = (Return r, st2) ->
  QueryResult.error r = None ->
  Forall2 truncated docs (QueryResult.sources r).
Proof.
  intros Hsearch Hq Herr.
  destruct (query_cases _ _ _ _ _ Hq)
    as [(e & _ & ->)|[(ds & Hs & -> & ->)|(ds & st' & resp & Hs & _ & _ & ->)]].
  - discriminate.
  - rewrite Hs in Hsearch. injection Hsearch as <- _. constructor.
  - rewrite Hs in Hsearch. injection Hsearch as <- _. cbn.
    clear. induction ds as [|doc ds IH]; cbn; constructor;
      auto using truncated_source_info.
Qed.

Lemma query_sources_truncated_witness :
  Forall2 truncated long_docs (QueryResult.sources long_result).
Proof.
  eapply (query_sources_truncated long_env "Emma Zunz" init_state long_docs _
            long_result _); reflexivity.
Defined.

(** ** [BorgesRAGChain._format_context] *)

Lemma format_loop_imap i documents context_parts :
  BorgesRAGChain.format_loop i documents context_parts
  = context_parts
    ++ imap (fun j doc => BorgesRAGChain.block (i + j) doc) documents.
Proof.
  revert i context_parts.
  induction documents as [|doc rest IH]; intros i context_parts; cbn.
  - rewrite app_nil_r. reflexivity.
  - rewrite IH, <- app_assoc. cbn. rewrite Nat.add_0_r.
    do 2 f_equal. apply imap_ext. intros j d _. cbn.
    f_equal. lia.
Qed.

(** The list [context_parts] at the end of the loop: block [i + 1] is built
    from the passage at index [i]. *)
Lemma context_parts_lookup documents i doc :
  documents !! i = Some doc ->
  BorgesRAGChain.format_loop 1 documents [] !! i
  = Some (BorgesRAGChain.block (S i) doc).
Proof.
  intros Hdoc. rewrite format_loop_imap. cbn.
  rewrite list_lookup_imap, Hdoc. reflexivity.
Qed.

Lemma context_parts_length documents :
  List.length (BorgesRAGChain.format_loop 1 documents [])
  = List.length documents.
Proof.
  rewrite format_loop_imap. cbn. apply length_imap.
Qed.

Lemma story_info_annotation metadata :
  annotation_of metadata (BorgesRAGChain.story_info metadata).
Proof.
  unfold annotation_of, BorgesRAGChain.story_info.
  destruct (metadata !! "story_title") as [title|];
    [|destruct (metadata !! "source") as [source|]];
    repeat split; intros; congruence.
Qed.

(** C6: on no passage the formatter returns the placeholder sentence; on a
    non-empty sequence it returns the blocks joined by a blank line, one block
    per passage and in the order of the passages, the block at position [i]
    holding the number [i + 1], the annotation (story title, else source, else
    nothing), the score with three decimals and the content of passage [i]. *)
Theorem format_context_blocks (documents : list Doc.t) :
  (documents = [] ->
     BorgesRAGChain._format_context documents
     = "No relevant passages found in the collection.")
  /\ (documents <> [] ->
      exists blocks,
        BorgesRAGChain._format_context documents = join (nl +:+ nl) blocks
        /\ List.length blocks = List.length documents
        /\ forall i doc, documents !! i = Some doc ->
             exists annotation,
               annotation_of (default ∅ (Doc.metadata doc)) annotation
               /\ blocks !! i
                  = Some ("Passage " +:+ str_nat (S i) +:+ annotation
                          +:+ " [Relevance: "
                          +:+ format_3f (default 0%float (Doc.score doc))
                          +:+ "]:" +:+ nl +:+ Doc.content doc)).
Proof.
  split.
  - intros ->. reflexivity.
  - intros Hne. exists (BorgesRAGChain.format_loop 1 documents []).
    split; [destruct documents; [congruence|reflexivity]|].
    split; [apply context_parts_length|].
    intros i doc Hdoc.
    exists (BorgesRAGChain.story_info (default ∅ (Doc.metadata doc))).
    split; [apply story_info_annotation|].
    rewrite (context_parts_lookup _ _ _ Hdoc).
    reflexivity.
Qed.

Lemma format_context_blocks_witness :
  BorgesRAGChain._format_context []
  = "No relevant passages found in the collection."
  /\ exists blocks,
       BorgesRAGChain._format_context three_docs = join (nl +:+ nl) blocks
       /\ List.length blocks = List.length three_docs
       /\ forall i doc, three_docs !! i = Some doc ->
            exists annotation,
              annotation_of (default ∅ (Doc.metadata doc)) annotation
              /\ blocks !! i
                 = Some ("Passage " +:+ str_nat (S i) +:+ annotation
                         +:+ " [Relevance: "
                         +:+ format_3f (default 0%float (Doc.score doc))
                         +:+ "]:" +:+ nl +:+ Doc.content doc).
Proof.
  split.
  - apply (proj1 (format_context_blocks [])). reflexivity.
  - apply (proj2 (format_context_blocks three_docs)). vm_compute. discriminate.
Defined.

Example format_context_three_docs :
  BorgesRAGChain._format_context three_docs
  = join nl
      [ "Passage 1 (from 'Emma Zunz') [Relevance: 0.900]:";
        "On the fourteenth of January";
        "";
        "Passage 2 [Relevance: 0.700]:";
        "The letter";
        "";
        "Passage 3 (from ficciones.txt) [Relevance: 0.500]:";
        "She slept" ].
Proof. vm_compute. reflexivity. Qed.

(** C7: the formatter is a function of the passages alone, and it follows
    their order: when the passages are permuted, the block bodies of the
    output are the same up to that permutation, and the block at position [i],
    numbered [i + 1], is the one of the passage now at position [i]. *)
Theorem format_context_order (documents permuted : list Doc.t) :
  documents ≡ₚ permuted ->
  (forall again, again = permuted ->
     BorgesRAGChain._format_context again
     = BorgesRAGChain._format_context permuted)
  /\ map BorgesRAGChain.block_body documents
     ≡ₚ map BorgesRAGChain.block_body permuted
  /\ List.length (BorgesRAGChain.format_loop 1 permuted [])
     = List.length documents
  /\ (forall i doc, permuted !! i = Some doc ->
        BorgesRAGChain.format_loop 1 permuted [] !! i
        = Some ("Passage " +:+ str_nat (S i) +:+ BorgesRAGChain.block_body doc))
  /\ (permuted <> [] ->
      BorgesRAGChain._format_context permuted
      = join (nl +:+ nl) (BorgesRAGChain.format_loop 1 permuted [])).
Proof.
  intros Hperm. repeat split.
  - intros again ->. reflexivity.
  - apply Permutation_map, Hperm.
  - rewrite context_parts_length. symmetry. apply Permutation_length, Hperm.
  - intros i doc Hdoc. apply context_parts_lookup, Hdoc.
  - destruct permuted; [congruence|reflexivity].
Qed.

Lemma format_context_order_witness :
  (forall again, again = rev three_docs ->
     BorgesRAGChain._format_context again
     = BorgesRAGChain._format_context (rev three_docs))
  /\ map BorgesRAGChain.block_body three_docs
     ≡ₚ map BorgesRAGChain.block_body (rev three_docs)
  /\ List.length (BorgesRAGChain.format_loop 1 (rev three_docs) [])
     = List.length three_docs
  /\ (forall i doc, rev three_docs !! i = Some doc ->
        BorgesRAGChain.format_loop 1 (rev three_docs) [] !! i
        = Some ("Passage " +:+ str_nat (S i) +:+ BorgesRAGChain.block_body doc))
  /\ (rev three_docs <> [] ->
      BorgesRAGChain._format_context (rev three_docs)
      = join (nl +:+ nl) (BorgesRAGChain.format_loop 1 (rev three_docs) [])).
Proof.
  apply (format_context_order three_docs (rev three_docs)).
  apply Permutation_rev.
Defined.

Example format_context_reversed :
  BorgesRAGChain._format_context (rev three_docs)
  = join nl
      [ "Passage 1 (from ficciones.txt) [Relevance: 0.500]:";
        "She slept";
        "";
        "Passage 2 [Relevance: 0.700]:";
        "The letter";
        "";
        "Passage 3 (from 'Emma Zunz') [Relevance: 0.900]:";
        "On the fourteenth of January" ].
Proof. vm_compute. reflexivity. Qed.

(** ** [chat_with_librarian] and the empty question *)

Lemma lstrip_whitespace_only s : whitespace_only s = true -> lstrip s = "".
Proof.
  induction s as [|c s IH]; cbn; [reflexivity|].
  destruct (isspace c); cbn; [exact IH|discriminate].
Qed.

Lemma rstrip_empty_whitespace_only s :
  rstrip s = "" -> whitespace_only s = true.
Proof.
  induction s as [|c s IH]; cbn; [reflexivity|].
  destruct (rstrip s); [|discriminate].
  destruct (isspace c); [intros _; apply IH; reflexivity|discriminate].
Qed.

Lemma lstrip_suffix s : exists pre, s = pre +:+ lstrip s /\ whitespace_only pre = true.
Proof.
  induction s as [|c s (pre & IH & Hpre)]; simpl.
  - exists "". auto.
  - destruct (isspace c) eqn:Hc.
    + exists (String c pre). simpl. rewrite Hc, Hpre. split; [|reflexivity].
      change (String c s = String c (pre +:+ lstrip s)). f_equal. exact IH.
    + exists "". auto.
Qed.

Lemma whitespace_only_app s1 s2 :
  whitespace_only (s1 +:+ s2) = whitespace_only s1 && whitespace_only s2.
Proof.
  induction s1 as [|c s1 IH]; simpl; [reflexivity|].
  rewrite IH, andb_assoc. reflexivity.
Qed.

(** [not message.strip()] holds exactly of the whitespace-only messages. *)
Lemma strip_empty_iff s : strip s = "" <-> whitespace_only s = true.
Proof.
  unfold strip. split.
  - intros Hstrip. apply rstrip_empty_whitespace_only in Hstrip.
    destruct (lstrip_suffix s) as (pre & Hs & Hpre).
    rewrite Hs, whitespace_only_app, Hpre, Hstrip. reflexivity.
  - intros Hws. rewrite lstrip_whitespace_only by assumption. reflexivity.
Qed.

(** C8, as amended: the guard is in [chat_with_librarian]. With a chain at
    hand, an empty or whitespace-only message is answered by the prompting
    message and the state is left as it was: no call to [query], hence none to
    [search], is made. *)
Theorem chat_empty_question env message history st :
  whitespace_only message = true ->
  chat_with_librarian (Some env) message history st
  = (Return "Please ask me something about Jorge Luis Borges' works.", st).
Proof.
  intros Hws. apply strip_empty_iff in Hws.
  unfold chat_with_librarian, try_except. rewrite Hws. reflexivity.
Qed.

Lemma chat_empty_question_witness :
  chat_with_librarian (Some three_env) "   " [] init_state
  = (Return "Please ask me something about Jorge Luis Borges' works.",
     init_state).
Proof.
  apply (chat_empty_question three_env "   " [] init_state). reflexivity.
Defined.

(** C8, as stated, fails: [BorgesRAGChain.query] has no guard and searches for
    the empty question, and [chat_with_librarian] without a chain answers
    with the not-initialized message. *)
Lemma empty_question_not_guarded :
  whitespace_only "" = true
  /\ (exists r st',
        BorgesRAGChain.query three_env "" init_state = (Return r, st')
        /\ QueryResult.answer r = "In the labyrinth."
        /\ QueryResult.answer r <> prompting_message
        /\ trace st'
           = [EvSentenceTransformer "all-MiniLM-L6-v2";
              EvEncode "";
              EvCollectionQuery [[0.25; 0.5]%float] 5
                ["documents"; "metadatas"; "distances"];
              EvChatOpenAI "gpt-4o-mini" 1000;
              EvLLMInvoke
                (BORGES_PROMPT_format
                   (BorgesRAGChain._format_context three_docs) "")]
        /\ count_events is_collection_query (trace st') = 1%nat)
  /\ chat_with_librarian None "" [] init_state
     = (Return not_initialized_message, init_state)
  /\ not_initialized_message <> prompting_message.
Proof.
  split; [reflexivity|]. split.
  - eexists _, _. split; [reflexivity|]. cbn.
    repeat split; discriminate.
  - split; [reflexivity|discriminate].
Qed.

(** ** [ChromaVectorStore.get_collection_info] *)



(** On a non-empty collection the sample is fetched with one query. *)
Example get_collection_info_three :
  ChromaVectorStore.get_collection_info three_env init_state
  = (Return (InfoConnected "borges_stories" 3 "connected"
               (Some {| sample_content_preview := "On the fourteenth of January";
                        metadata_keys := ["story_title"] |})),
     {| _embedding_model := true; _llm := false;
        trace := [EvCollectionCount;
                  EvSentenceTransformer "all-MiniLM-L6-v2";
                  EvEncode "sample";
                  EvCollectionQuery [[0.25; 0.5]%float] 1
                    ["documents"; "metadatas"]] |}).
Proof. vm_compute. reflexivity. Qed.

(** ** The scenario of the specification *)

Example query_emma_zunz :
  exists r st',
    BorgesRAGChain.query three_env "Emma Zunz" init_state = (Return r, st')
    /\ QueryResult.answer r = "In the labyrinth."
    /\ map Source.score (QueryResult.sources r) = [0.9; 0.7; 0.5]%float
    /\ map Source.distance (QueryResult.sources r)
       = [Some 0.1; Some 0.3; Some 0.5]%float
    /\ QueryResult.num_sources r = Some 3%nat
    /\ QueryResult.context_used r = BorgesRAGChain._format_context three_docs
    /\ count_events is_llm_invoke (trace st') = 1%nat.
Proof.
  eexists _, _. split; [reflexivity|]. cbn. repeat split.
Qed.


(** * Further properties of the code *)

(** ** [ChromaVectorStore.search]: the calls it makes *)

Ltac unfold_monad :=
  unfold try_except, bind, call, lift, ret, raise in *.

(** With a model that loads and encodes, one call of [search] encodes the
    query once and queries the collection once, for [k] results when [k] is
    given and not zero and for [settings.top_k] otherwise; the model is built
    only when it was not loaded, and it is loaded afterwards. *)
Theorem search_calls env query k score_threshold st embedding :
  (_embedding_model st = false ->
   SentenceTransformer env (embedding_model (settings env)) = Return tt) ->
  encode env query = Return embedding ->
  exists outcome st',
    ChromaVectorStore.search env query k score_threshold st = (outcome, st')
    /\ trace st'
       = trace st ++ model_events env st
         ++ [EvEncode query;
             EvCollectionQuery [embedding] (effective_k env k)
               ["documents"; "metadatas"; "distances"]]
    /\ _embedding_model st' = true
    /\ _llm st' = _llm st.
Proof.
  intros Hmodel Hencode.
  unfold ChromaVectorStore.search, ChromaVectorStore._get_embedding_model,
    model_events, effective_k.
  unfold_monad.
  destruct (_embedding_model st) eqn:Hloaded; cbn.
  - rewrite Hencode; cbn.
    repeat case_match; simplify_eq; eexists _, _;
      (split; [reflexivity|]); cbn; rewrite <- ?app_assoc; auto.
  - rewrite Hmodel by reflexivity; cbn. rewrite Hencode; cbn.
    repeat case_match; simplify_eq; eexists _, _;
      (split; [reflexivity|]); cbn; rewrite <- ?app_assoc; auto.
Qed.

Lemma search_calls_witness :
  exists outcome st',
    ChromaVectorStore.search three_env "Emma Zunz" (Some 0) None init_state
    = (outcome, st')
    /\ trace st'
       = trace init_state ++ model_events three_env init_state
         ++ [EvEncode "Emma Zunz";
             EvCollectionQuery [[0.25; 0.5]%float]
               (effective_k three_env (Some 0))
               ["documents"; "metadatas"; "distances"]]
    /\ _embedding_model st' = true
    /\ _llm st' = _llm init_state.
Proof.
  apply (search_calls three_env "Emma Zunz" (Some 0) None init_state
           [0.25; 0.5]%float); reflexivity.
Defined.

(** When the embedding model cannot be built, [search] raises around the
    cause without encoding or querying, and the model stays unloaded, so that
    the next call tries again. *)
Theorem search_model_failure env query k score_threshold st cause :
  _embedding_model st = false ->
  SentenceTransformer env (embedding_model (settings env)) = Raise cause ->
  exists st',
    ChromaVectorStore.search env query k score_threshold st
    = (Raise (search_failure env cause), st')
    /\ trace st'
       = trace st ++ [EvSentenceTransformer (embedding_model (settings env))]
    /\ _embedding_model st' = false.
Proof.
  intros Hloaded Hmodel.
  unfold ChromaVectorStore.search, ChromaVectorStore._get_embedding_model.
  unfold_monad. rewrite Hloaded, Hmodel. cbn. eauto.
Qed.

(** Every exception that leaves [search] carries the message of the
    [RuntimeError]: the name of the collection, then the cause. *)
Theorem search_raises_wrapped env query k score_threshold st e st' :
  ChromaVectorStore.search env query k score_threshold st = (Raise e, st') ->
  exists cause, e = search_failure env cause.
Proof.
  unfold ChromaVectorStore.search, ChromaVectorStore._get_embedding_model,
    search_failure.
  unfold_monad. intros H.
  destruct (_embedding_model st); cbn in H;
    repeat case_match; simplify_eq; cbn in *; simplify_eq; eauto.
Qed.

Lemma search_model_failure_witness :
  exists st',
    ChromaVectorStore.search no_model_env "Emma Zunz" None None init_state
    = (Raise (search_failure no_model_env "model not found"), st')
    /\ trace st'
       = trace init_state
         ++ [EvSentenceTransformer (embedding_model (settings no_model_env))]
    /\ _embedding_model st' = false.
Proof.
  apply (search_model_failure no_model_env "Emma Zunz" None None init_state);
    reflexivity.
Defined.

Lemma search_raises_wrapped_witness :
  exists cause,
    "Failed to search collection 'borges_stories': connection lost"
    = search_failure failing_env cause.
Proof.
  eapply (search_raises_wrapped failing_env "Emma Zunz" None None init_state).
  reflexivity.
Defined.

(** ** [ChromaVectorStore.search]: the passages it builds *)

Lemma format_results_length row_docs row_metas row_dists :
  List.length (ChromaVectorStore.format_results row_docs row_metas row_dists)
  = (List.length row_docs `min` (List.length row_metas
                                 `min` List.length row_dists))%nat.
Proof.
  revert row_metas row_dists.
  induction row_docs as [|text row_docs IH];
    intros [|meta row_metas] [|d row_dists]; cbn; try lia.
  rewrite IH. lia.
Qed.

(** The passages follow the first rows of the result position by position
    and stop with the shortest of the three rows; a passage has its text from
    the documents and its metadata from the metadatas, an empty dictionary
    standing for [None]. *)
Theorem search_zips_rows env query k score_threshold st docs st' :
  ChromaVectorStore.search env query k score_threshold st = (Return docs, st') ->
  exists embedding results row_docs row_metas row_dists,
    collection_query env [embedding] (effective_k env k)
      ["documents"; "metadatas"; "distances"] = Return results
    /\ ChromaVectorStore.get_first (documents results) = Return row_docs
    /\ ChromaVectorStore.get_first (metadatas results) = Return row_metas
    /\ ChromaVectorStore.get_first (distances results) = Return row_dists
    /\ List.length docs
       = (List.length row_docs `min` (List.length row_metas
                                      `min` List.length row_dists))%nat
    /\ forall i doc, docs !! i = Some doc ->
         exists meta,
           row_docs !! i = Some (Doc.content doc)
           /\ row_metas !! i = Some meta
           /\ Doc.metadata doc = Some (default ∅ meta).
Proof.
  intros Hsearch.
  destruct (search_returns_inv _ _ _ _ _ _ _ Hsearch)
    as (embedding & results & row_docs & row_metas & row_dists
        & _ & Hquery & Hdocs & Hmetas & Hdists & ->).
  exists embedding, results, row_docs, row_metas, row_dists.
  repeat split; try assumption.
  - apply format_results_length.
  - intros i doc Hdoc.
    destruct (format_results_lookup _ _ _ _ _ Hdoc)
      as (text & meta & d & Htext & Hmeta & _ & ->).
    exists meta. auto.
Qed.

Lemma search_zips_rows_witness :
  exists embedding results row_docs row_metas row_dists,
    collection_query ragged_env [embedding] (effective_k ragged_env None)
      ["documents"; "metadatas"; "distances"] = Return results
    /\ ChromaVectorStore.get_first (documents results) = Return row_docs
    /\ ChromaVectorStore.get_first (metadatas results) = Return row_metas
    /\ ChromaVectorStore.get_first (distances results) = Return row_dists
    /\ List.length
         (ChromaVectorStore.format_results ["first"; "second"; "third"]
            [None; Some emma_zunz] [Some 0.5; Some 0.25; None; None]%float)
       = (List.length row_docs `min` (List.length row_metas
                                      `min` List.length row_dists))%nat
    /\ forall i doc,
         ChromaVectorStore.format_results ["first"; "second"; "third"]
           [None; Some emma_zunz] [Some 0.5; Some 0.25; None; None]%float
         !! i = Some doc ->
         exists meta,
           row_docs !! i = Some (Doc.content doc)
           /\ row_metas !! i = Some meta
           /\ Doc.metadata doc = Some (default ∅ meta).
Proof.
  eapply (search_zips_rows ragged_env "Emma Zunz" None None init_state).
  reflexivity.
Defined.

(** A result in which one of the three keys is missing gives no passage and
    no error: the default row of [results.get] is empty. *)
Theorem search_missing_key env query k score_threshold st docs st'
        embedding results :
  encode env query = Return embedding ->
  collection_query env [embedding] (effective_k env k)
    ["documents"; "metadatas"; "distances"] = Return results ->
  documents results = Absent \/ metadatas results = Absent
  \/ distances results = Absent ->
  ChromaVectorStore.search env query k score_threshold st = (Return docs, st') ->
  docs = [].
Proof.
  intros Hencode Hquery Habsent Hsearch.
  destruct (search_returns_inv _ _ _ _ _ _ _ Hsearch)
    as (embedding' & results' & row_docs & row_metas & row_dists
        & Hencode' & Hquery' & Hdocs & Hmetas & Hdists & ->).
  rewrite Hencode in Hencode'. injection Hencode' as <-.
  rewrite Hquery in Hquery'. injection Hquery' as <-.
  apply length_zero_iff_nil. rewrite format_results_length.
  destruct Habsent as [H|[H|H]]; rewrite H in *; cbn in *; simplify_eq;
    cbn; lia.
Qed.

Lemma search_missing_key_witness :
  @nil Doc.t = [].
Proof.
  apply (search_missing_key keyless_env "Emma Zunz" None None init_state []
           {| _embedding_model := true; _llm := false;
              trace := [EvSentenceTransformer "all-MiniLM-L6-v2";
                        EvEncode "Emma Zunz";
                        EvCollectionQuery [[0.25; 0.5]%float] 5
                          ["documents"; "metadatas"; "distances"]] |}
           [0.25; 0.5]%float keyless_passages);
    [reflexivity|reflexivity|left; reflexivity|reflexivity].
Defined.

(** ** [ChromaVectorStore.get_collection_info] beyond the empty collection *)

(** No exception leaves [get_collection_info]. When [count()] returns, the
    record is the connected one with that count, whatever happens to the
    sample query; when [count()] raises, the record is the error one with the
    message, and nothing else was called. *)
Theorem get_collection_info_status env st :
  exists info st',
    ChromaVectorStore.get_collection_info env st = (Return info, st')
    /\ match collection_count env with
       | Return n =>
           exists sample_data,
             info = InfoConnected (collection_name env) n "connected"
                      sample_data
       | Raise e =>
           info = InfoError e "error" (collection_name env)
           /\ trace st' = trace st ++ [EvCollectionCount]
       end.
Proof.
  unfold ChromaVectorStore.get_collection_info,
    ChromaVectorStore._get_embedding_model.
  unfold_monad.
  destruct (collection_count env) as [n|e]; cbn; [|eauto].
  destruct (0 <? n); [|eauto].
  destruct (_embedding_model st); cbn;
    repeat case_match; simplify_eq; eauto.
Qed.

Lemma length_preview limit text :
  (String.length (preview limit text) <= limit + 3)%nat.
Proof.
  destruct (Nat.le_gt_cases (String.length text) limit) as [Hle|Hgt].
  - rewrite preview_short by assumption. lia.
  - destruct (preview_long limit text Hgt) as [_ ->]. lia.
Qed.

(** A sample is reported only for a positive count; it comes from one query
    for a single result with the documents and the metadatas, and its preview
    is the first document cut to 100 characters and three dots, at most 103
    characters. *)
Theorem get_collection_info_sample env st name n status sample_data st' :
  ChromaVectorStore.get_collection_info env st
  = (Return (InfoConnected name n status (Some sample_data)), st') ->
  0 < n
  /\ (String.length (sample_content_preview sample_data) <= 103)%nat
  /\ exists embedding results doc others rows,
       encode env "sample" = Return embedding
       /\ collection_query env [embedding] 1 ["documents"; "metadatas"]
          = Return results
       /\ documents results = Rows ((doc :: others) :: rows)
       /\ sample_content_preview sample_data = preview 100 doc.
Proof.
  unfold ChromaVectorStore.get_collection_info,
    ChromaVectorStore._get_embedding_model, ChromaVectorStore.sample,
    ChromaVectorStore.getitem.
  unfold_monad. intros H.
  destruct (collection_count env) as [n0|e]; cbn in H; [|discriminate].
  destruct (Z.ltb_spec 0 n0) as [Hpos|Hle]; [|discriminate].
  destruct (_embedding_model st); cbn in H;
    repeat case_match; simplify_eq; cbn in *; simplify_eq; cbn;
    (split; [assumption|]); (split; [apply (length_preview 100)|]);
    eexists _, _, _, _, _; eauto.
Qed.

Lemma get_collection_info_sample_witness :
  0 < 1
  /\ (String.length
        (sample_content_preview
           {| sample_content_preview := preview 100 long_content;
              metadata_keys := ["story_title"] |}) <= 103)%nat
  /\ exists embedding results doc others rows,
       encode long_sample_env "sample" = Return embedding
       /\ collection_query long_sample_env [embedding] 1
            ["documents"; "metadatas"] = Return results
       /\ documents results = Rows ((doc :: others) :: rows)
       /\ sample_content_preview
            {| sample_content_preview := preview 100 long_content;
               metadata_keys := ["story_title"] |}
          = preview 100 doc.
Proof.
  eapply (get_collection_info_sample long_sample_env init_state
            "borges_stories" 1 "connected").
  vm_compute. reflexivity.
Defined.

(** [get_collection_info] queries the collection at most once and never
    calls the LLM. *)
Theorem get_collection_info_calls env st outcome st' :
  ChromaVectorStore.get_collection_info env st = (outcome, st') ->
  (count_events is_collection_query (trace st')
   <= count_events is_collection_query (trace st) + 1)%nat
  /\ count_events is_llm_invoke (trace st')
     = count_events is_llm_invoke (trace st).
Proof.
  unfold ChromaVectorStore.get_collection_info,
    ChromaVectorStore._get_embedding_model.
  unfold_monad. intros H.
  destruct (collection_count env) as [n|e]; cbn in H;
    [destruct (0 <? n); [destruct (_embedding_model st); cbn in H|]|];
    repeat case_match; simplify_eq; cbn [trace];
    rewrite ?count_events_app; cbn; lia.
Qed.

Lemma get_collection_info_calls_witness :
  (count_events is_collection_query
     [EvCollectionCount; EvSentenceTransformer "all-MiniLM-L6-v2";
      EvEncode "sample";
      EvCollectionQuery [[0.25; 0.5]%float] 1 ["documents"; "metadatas"]]
   <= count_events is_collection_query [] + 1)%nat
  /\ count_events is_llm_invoke
       [EvCollectionCount; EvSentenceTransformer "all-MiniLM-L6-v2";
        EvEncode "sample";
        EvCollectionQuery [[0.25; 0.5]%float] 1 ["documents"; "metadatas"]]
     = count_events is_llm_invoke [].
Proof.
  apply (get_collection_info_calls three_env init_state
           (Return (InfoConnected "borges_stories" 3 "connected"
              (Some {| sample_content_preview := "On the fourteenth of January";
                       metadata_keys := ["story_title"] |})))
           {| _embedding_model := true; _llm := false;
              trace := [EvCollectionCount;
                        EvSentenceTransformer "all-MiniLM-L6-v2";
                        EvEncode "sample";
                        EvCollectionQuery [[0.25; 0.5]%float] 1
                          ["documents"; "metadatas"]] |}).
  vm_compute. reflexivity.
Defined.

(** ** [BorgesRAGChain.query]: the calls to the LLM *)

Lemma str_app_nil_r s : s +:+ "" = s.
Proof.
  induction s as [|c s IH]; [reflexivity|].
  change (String c (s +:+ "") = String c s). rewrite IH. reflexivity.
Qed.

Lemma str_app_assoc s1 s2 s3 : (s1 +:+ s2) +:+ s3 = s1 +:+ s2 +:+ s3.
Proof.
  induction s1 as [|c s1 IH]; [reflexivity|].
  change (String c ((s1 +:+ s2) +:+ s3) = String c (s1 +:+ s2 +:+ s3)).
  rewrite IH. reflexivity.
Qed.

Lemma is_substring_join sep before part after :
  is_substring part (join sep (before ++ part :: after)).
Proof.
  induction before as [|p before (pre & post & IH)]; cbn [app].
  - destruct after as [|a after].
    + exists "", "". change (part = part +:+ ""). symmetry.
      apply str_app_nil_r.
    + exists "", (sep +:+ join sep (a :: after)). reflexivity.
  - destruct (before ++ part :: after) as [|x rest] eqn:Hrest.
    + destruct before; discriminate.
    + change (join sep (p :: x :: rest))
        with (p +:+ sep +:+ join sep (x :: rest)).
      rewrite IH. exists (p +:+ sep +:+ pre), post.
      rewrite !str_app_assoc. reflexivity.
Qed.

(** A result with sources comes from one invocation of the LLM, the last call
    of [query]; the client is built just before when there was none. *)
Lemma query_success_inv env question st r st' :
  BorgesRAGChain.query env question st = (Return r, st') ->
  QueryResult.sources r <> [] ->
  exists docs st1 response,
    ChromaVectorStore.search env question None None st = (Return docs, st1)
    /\ docs <> []
    /\ r = {| QueryResult.answer :=
                match response_content response with
                | Some content => content
                | None => str_response response
                end;
              QueryResult.sources := map BorgesRAGChain.source_info docs;
              QueryResult.context_used := BorgesRAGChain._format_context docs;
              QueryResult.num_sources := Some (List.length docs);
              QueryResult.error := None |}
    /\ trace st'
       = trace st1 ++ llm_events env st1
         ++ [EvLLMInvoke
               (BORGES_PROMPT_format (BorgesRAGChain._format_context docs)
                  question)]
    /\ _llm st' = true
    /\ _embedding_model st' = _embedding_model st1.
Proof.
  intros H Hsources.
  unfold BorgesRAGChain.query, try_except in H.
  destruct (BorgesRAGChain.query_body env question st) as [[r0|e] st0] eqn:Hbody;
    injection H as <- <-; [|cbn in Hsources; congruence].
  unfold BorgesRAGChain.query_body, bind in Hbody.
  destruct (ChromaVectorStore.search env question None None st)
    as [[docs|e] st1]; [|discriminate].
  destruct docs as [|doc docs];
    [injection Hbody as <- <-; cbn in Hsources; congruence|].
  exists (doc :: docs), st1.
  cbv zeta in Hbody.
  set (prompt := BORGES_PROMPT_format _ question) in *.
  unfold BorgesRAGChain._get_llm, llm_events, bind, call, ret in *.
  destruct (_llm st1) eqn:Hllm.
  - destruct (llm_invoke env prompt) as [response|e]; [|discriminate].
    injection Hbody as <- <-. exists response. cbn.
    split; [reflexivity|]. split; [discriminate|]. auto.
  - destruct (openai_api_key (settings env)) as [[|c key]|]; try discriminate.
    destruct (ChatOpenAI env (model_name (settings env)) 1000) as [[]|e];
      [|discriminate].
    cbv beta iota in Hbody.
    destruct (llm_invoke env prompt) as [response|e]; [|discriminate].
    injection Hbody as <- <-. exists response. cbn.
    split; [reflexivity|]. split; [discriminate|].
    rewrite <- app_assoc. auto.
Qed.

(** The context reported in a result with sources is the one the LLM was
    given: the last call of [query] is the invocation of the LLM on the
    prompt filled with [context_used] and the question, both of which occur in
    the prompt. *)
Theorem query_context_is_prompt env question st r st' :
  BorgesRAGChain.query env question st = (Return r, st') ->
  QueryResult.sources r <> [] ->
  let prompt := BORGES_PROMPT_format (QueryResult.context_used r) question in
  last (trace st') = Some (EvLLMInvoke prompt)
  /\ is_substring (QueryResult.context_used r) prompt
  /\ is_substring question prompt
  /\ QueryResult.error r = None.
Proof.
  intros Hq Hsources prompt.
  destruct (query_success_inv _ _ _ _ _ Hq Hsources)
    as (docs & st1 & response & _ & _ & -> & Htrace & _ & _).
  subst prompt. cbn [QueryResult.context_used QueryResult.error].
  repeat split.
  - rewrite Htrace, !app_assoc. apply last_snoc.
  - unfold BORGES_PROMPT_format. apply is_substring_join.
  - unfold BORGES_PROMPT_format, is_substring.
    destruct (is_substring_join nl
                (BORGES_EXPERT_TEMPLATE_head
                 ++ [BorgesRAGChain._format_context docs; ""])
                ("Question: " +:+ question)
                [""; "Your response as The Librarian:"])
      as (pre & post & Hjoin).
    rewrite <- app_assoc in Hjoin. cbn [app] in Hjoin.
    exists (pre +:+ "Question: "), post.
    rewrite Hjoin, !str_app_assoc. reflexivity.
Qed.

Lemma query_context_is_prompt_witness :
  let prompt :=
    BORGES_PROMPT_format (QueryResult.context_used three_result) "Emma Zunz" in
  last (trace three_state) = Some (EvLLMInvoke prompt)
  /\ is_substring (QueryResult.context_used three_result) prompt
  /\ is_substring "Emma Zunz" prompt
  /\ QueryResult.error three_result = None.
Proof.
  apply (query_context_is_prompt three_env "Emma Zunz" init_state three_result
           three_state).
  - vm_compute. reflexivity.
  - vm_compute. discriminate.
Defined.

(** One call of [query] invokes the LLM at most once. *)
Theorem query_invokes_llm_at_most_once env question st outcome st' :
  BorgesRAGChain.query env question st = (outcome, st') ->
  (count_events is_llm_invoke (trace st')
   <= count_events is_llm_invoke (trace st) + 1)%nat.
Proof.
  intros H.
  unfold BorgesRAGChain.query, try_except, BorgesRAGChain.query_body, bind in H.
  destruct (ChromaVectorStore.search env question None None st)
    as [[docs|e] st1] eqn:Hsearch.
  - pose proof (adds_no_count _ _ _ _ _
                  (search_adds_no_llm_invoke env question None None) Hsearch)
      as Hcount.
    destruct docs as [|doc docs].
    + unfold ret in H. injection H as <- <-. lia.
    + cbv zeta in H.
      set (prompt := BORGES_PROMPT_format _ question) in *.
      unfold BorgesRAGChain._get_llm, bind, call, ret in H.
      destruct (_llm st1);
        [|destruct (openai_api_key (settings env)) as [[|c key]|];
          [| destruct (ChatOpenAI env (model_name (settings env)) 1000)
               as [[]|e]; cbv beta iota in H |]];
        try destruct (llm_invoke env prompt) as [response|e];
        injection H as <- <-; cbn [trace];
        rewrite ?count_events_app; cbn; lia.
  - unfold ret in H. injection H as <- <-.
    rewrite (adds_no_count _ _ _ _ _
               (search_adds_no_llm_invoke env question None None) Hsearch).
    lia.
Qed.

Lemma query_invokes_llm_at_most_once_witness :
  (count_events is_llm_invoke (trace three_state)
   <= count_events is_llm_invoke (trace init_state) + 1)%nat.
Proof.
  apply (query_invokes_llm_at_most_once three_env "Emma Zunz" init_state
           (Return three_result) three_state).
  vm_compute. reflexivity.
Defined.

(** Without an API key and without a client built earlier, a query whose
    search finds passages ends with the error "OpenAI API key not provided":
    no client is built and the LLM is not invoked, the state is the one the
    search left. *)
Theorem query_without_api_key env question st docs st1 :
  no_api_key (settings env) ->
  _llm st = false ->
  ChromaVectorStore.search env question None None st = (Return docs, st1) ->
  docs <> [] ->
  BorgesRAGChain.query env question st
  = (Return (BorgesRAGChain.error_result "OpenAI API key not provided"), st1).
Proof.
  intros Hkey Hllm Hsearch Hdocs.
  assert (_llm st1 = false) as Hllm1.
  { revert Hsearch. clear -Hllm.
    unfold ChromaVectorStore.search, ChromaVectorStore._get_embedding_model.
    unfold_monad. intros H.
    destruct (_embedding_model st); cbn in H;
      repeat case_match; simplify_eq; cbn; assumption. }
  unfold BorgesRAGChain.query, try_except, BorgesRAGChain.query_body, bind.
  rewrite Hsearch. destruct docs as [|doc docs]; [congruence|].
  cbv zeta. unfold BorgesRAGChain._get_llm. rewrite Hllm1.
  destruct Hkey as [-> | ->]; reflexivity.
Qed.

Lemma query_without_api_key_witness :
  BorgesRAGChain.query no_key_env "Emma Zunz" init_state
  = (Return (BorgesRAGChain.error_result "OpenAI API key not provided"),
     searched_state).
Proof.
  apply (query_without_api_key no_key_env "Emma Zunz" init_state three_docs
           searched_state).
  - left. reflexivity.
  - reflexivity.
  - vm_compute. reflexivity.
  - vm_compute. discriminate.
Defined.

(** In every result of [query] the score of a source is [1 - distance] when
    the source has a distance and [0] when the distance is [None]: the
    defaults of [doc.get] are never used on the passages of [search]. *)
Theorem query_sources_scores env question st r st' :
  BorgesRAGChain.query env question st = (Return r, st') ->
  Forall (fun src =>
            Source.score src
            = match Source.distance src with
              | Some d => (1 - d)%float
              | None => 0%float
              end)
         (QueryResult.sources r).
Proof.
  intros Hq.
  destruct (query_cases _ _ _ _ _ Hq)
    as [(e & _ & ->)|[(ds & _ & _ & ->)|(ds & st1 & resp & Hs & _ & _ & ->)]];
    cbn; try constructor.
  destruct (search_returns_inv _ _ _ _ _ _ _ Hs)
    as (embedding & results & row_docs & row_metas & row_dists
        & _ & _ & _ & _ & _ & ->).
  clear. revert row_metas row_dists.
  induction row_docs as [|text row_docs IH];
    intros [|meta row_metas] [|d row_dists]; cbn; constructor; auto.
Qed.

Lemma query_sources_scores_witness :
  Forall (fun src =>
            Source.score src
            = match Source.distance src with
              | Some d => (1 - d)%float
              | None => 0%float
              end)
         (QueryResult.sources three_result).
Proof.
  apply (query_sources_scores three_env "Emma Zunz" init_state three_result
           three_state).
  vm_compute. reflexivity.
Defined.

(** ** The lazily built clients *)

Lemma search_returns_loaded env query k score_threshold st docs st' :
  ChromaVectorStore.search env query k score_threshold st = (Return docs, st') ->
  _embedding_model st' = true.
Proof.
  unfold ChromaVectorStore.search, ChromaVectorStore._get_embedding_model.
  unfold_monad. intros H.
  destruct (_embedding_model st) eqn:Hloaded; cbn in H;
    repeat case_match; simplify_eq; cbn; auto.
Qed.

Lemma search_loaded env query k score_threshold st outcome st' :
  _embedding_model st = true ->
  ChromaVectorStore.search env query k score_threshold st = (outcome, st') ->
  _embedding_model st' = true /\ _llm st' = _llm st
  /\ count_events is_sentence_transformer (trace st')
     = count_events is_sentence_transformer (trace st)
  /\ count_events is_chat_openai (trace st')
     = count_events is_chat_openai (trace st).
Proof.
  unfold ChromaVectorStore.search, ChromaVectorStore._get_embedding_model.
  unfold_monad. intros Hloaded H. rewrite Hloaded in H. cbn in H.
  repeat case_match; simplify_eq; cbn [trace _embedding_model _llm];
    rewrite ?count_events_app; cbn; auto with lia.
Qed.

Lemma query_loaded env question st outcome st' :
  _embedding_model st = true -> _llm st = true ->
  BorgesRAGChain.query env question st = (outcome, st') ->
  count_events is_sentence_transformer (trace st')
  = count_events is_sentence_transformer (trace st)
  /\ count_events is_chat_openai (trace st')
     = count_events is_chat_openai (trace st).
Proof.
  intros Hmodel Hllm H.
  unfold BorgesRAGChain.query, try_except, BorgesRAGChain.query_body, bind in H.
  destruct (ChromaVectorStore.search env question None None st)
    as [[docs|e] st1] eqn:Hsearch;
    destruct (search_loaded _ _ _ _ _ _ _ Hmodel Hsearch)
      as (_ & Hllm1 & Hst & Hchat);
    [destruct docs as [|doc docs]|];
    try (unfold ret in H; injection H as <- <-; auto).
  cbv zeta in H.
  set (prompt := BORGES_PROMPT_format _ question) in *.
  unfold BorgesRAGChain._get_llm, bind, call, ret in H.
  rewrite Hllm1, Hllm in H.
  destruct (llm_invoke env prompt) as [response|e];
    injection H as <- <-; cbn [trace];
    rewrite !count_events_app, Hst, Hchat; cbn; lia.
Qed.

(** The clients are built once: after a query that returned sources, a
    further query builds neither the embedding model nor the LLM client
    again. *)
Theorem query_builds_clients_once env question st r st1 next outcome st2 :
  BorgesRAGChain.query env question st = (Return r, st1) ->
  QueryResult.sources r <> [] ->
  BorgesRAGChain.query env next st1 = (outcome, st2) ->
  count_events is_sentence_transformer (trace st2)
  = count_events is_sentence_transformer (trace st1)
  /\ count_events is_chat_openai (trace st2)
     = count_events is_chat_openai (trace st1).
Proof.
  intros Hfirst Hsources Hnext.
  destruct (query_success_inv _ _ _ _ _ Hfirst Hsources)
    as (docs & st0 & response & Hsearch & _ & _ & _ & Hllm & Hmodel).
  apply search_returns_loaded in Hsearch.
  eapply query_loaded; [congruence|exact Hllm|exact Hnext].
Qed.

Lemma query_builds_clients_once_witness :
  count_events is_sentence_transformer
    (trace three_state
     ++ [EvEncode "The Aleph";
         EvCollectionQuery [[0.25; 0.5]%float] 5
           ["documents"; "metadatas"; "distances"];
         EvLLMInvoke
           (BORGES_PROMPT_format
              (BorgesRAGChain._format_context three_docs) "The Aleph")])
  = count_events is_sentence_transformer (trace three_state)
  /\ count_events is_chat_openai
       (trace three_state
        ++ [EvEncode "The Aleph";
            EvCollectionQuery [[0.25; 0.5]%float] 5
              ["documents"; "metadatas"; "distances"];
            EvLLMInvoke
              (BORGES_PROMPT_format
                 (BorgesRAGChain._format_context three_docs) "The Aleph")])
     = count_events is_chat_openai (trace three_state).
Proof.
  apply (query_builds_clients_once three_env "Emma Zunz" init_state three_result
           three_state "The Aleph" (Return three_result)
           {| _embedding_model := true; _llm := true;
              trace := trace three_state
                       ++ [EvEncode "The Aleph";
                           EvCollectionQuery [[0.25; 0.5]%float] 5
                             ["documents"; "metadatas"; "distances"];
                           EvLLMInvoke
                             (BORGES_PROMPT_format
                                (BorgesRAGChain._format_context three_docs)
                                "The Aleph")] |}).
  - vm_compute. reflexivity.
  - vm_compute. discriminate.
  - vm_compute. reflexivity.
Defined.

(** ** [chat_with_librarian] on a question *)

Lemma strip_truthy message :
  whitespace_only message = false -> truthy (strip message) = true.
Proof.
  intros Hws. destruct (strip message) eqn:Hstrip; [|reflexivity].
  apply strip_empty_iff in Hstrip. congruence.
Qed.

(** With a chain at hand and a message that is not blank, the reply is the
    answer of [query]; when [query] recovered from an exception the reply is
    the fixed excuse followed by the message of the exception, and the
    apology [query] wrote is dropped. No exception leaves the function. *)
Theorem chat_reply env message history st :
  whitespace_only message = false ->
  exists r st',
    BorgesRAGChain.query env message st = (Return r, st')
    /\ chat_with_librarian (Some env) message history st
       = (Return match QueryResult.error r with
                 | Some e => "I apologize, but I encountered an issue: " +:+ e
                 | None => QueryResult.answer r
                 end, st').
Proof.
  intros Hws. destruct (query_returns env message st) as (r & st' & Hq).
  exists r, st'. split; [exact Hq|].
  unfold chat_with_librarian, try_except, bind.
  rewrite (strip_truthy _ Hws). cbn [negb]. rewrite Hq.
  destruct (QueryResult.error r); reflexivity.
Qed.

Lemma chat_reply_witness :
  exists r st',
    BorgesRAGChain.query failing_env "Emma Zunz" init_state = (Return r, st')
    /\ chat_with_librarian (Some failing_env) "Emma Zunz" [] init_state
       = (Return match QueryResult.error r with
                 | Some e => "I apologize, but I encountered an issue: " +:+ e
                 | None => QueryResult.answer r
                 end, st').
Proof.
  apply (chat_reply failing_env "Emma Zunz" [] init_state). reflexivity.
Defined.

Example chat_failing_collection :
  fst (chat_with_librarian (Some failing_env) "Emma Zunz" [] init_state)
  = Return "I apologize, but I encountered an issue: Failed to search collection 'borges_stories': connection lost".
Proof. vm_compute. reflexivity. Qed.

(** ** [truncate_text] *)

Lemma length_substring_ge n s :
  (String.length s <= n)%nat -> substring 0 n s = s.
Proof.
  revert s. induction n as [|n IH]; intros [|c s]; cbn; intros Hle;
    try reflexivity; try lia.
  rewrite IH by lia. reflexivity.
Qed.

Lemma length_substring n s :
  String.length (substring 0 n s) = (n `min` String.length s)%nat.
Proof.
  destruct (Nat.le_gt_cases n (String.length s)) as [Hle|Hgt].
  - rewrite length_substring_le by assumption. lia.
  - rewrite length_substring_ge by lia. lia.
Qed.

Lemma length_slice_to n text :
  Z.of_nat (String.length (slice_to n text))
  = if 0 <=? n then Z.min n (Z.of_nat (String.length text))
    else Z.max 0 (Z.of_nat (String.length text) + n).
Proof.
  unfold slice_to. destruct (Z.leb_spec 0 n); rewrite length_substring; lia.
Qed.

Lemma length_truncated text max_length suffix :
  Z.of_nat (String.length suffix) <= max_length ->
  max_length < Z.of_nat (String.length text) ->
  Z.of_nat (String.length
              (slice_to (max_length - Z.of_nat (String.length suffix)) text
               +:+ suffix)) = max_length.
Proof.
  intros Hsuffix Htext.
  rewrite length_str_app, Nat2Z.inj_add, length_slice_to.
  destruct (Z.leb_spec 0 (max_length - Z.of_nat (String.length suffix))); lia.
Qed.

(** With a suffix that fits in [max_length], the result never exceeds
    [max_length]: a text within the limit is returned as it is, a longer one
    is cut to exactly [max_length] characters, the suffix included. *)
Theorem truncate_text_within_limit text max_length suffix :
  Z.of_nat (String.length suffix) <= max_length ->
  Z.of_nat (String.length (truncate_text text max_length suffix)) <= max_length
  /\ (Z.of_nat (String.length text) <= max_length ->
      truncate_text text max_length suffix = text)
  /\ (max_length < Z.of_nat (String.length text) ->
      truncate_text text max_length suffix
      = substring 0 (Z.to_nat max_length - String.length suffix) text
        +:+ suffix
      /\ Z.of_nat (String.length (truncate_text text max_length suffix))
         = max_length).
Proof.
  intros Hsuffix. unfold truncate_text.
  destruct (Z.leb_spec (Z.of_nat (String.length text)) max_length) as [Hle|Hgt].
  - split; [assumption|]. split; [reflexivity|lia].
  - pose proof (length_truncated text max_length suffix Hsuffix Hgt) as Hlen.
    split; [lia|]. split; [lia|]. intros _. split; [|exact Hlen].
    unfold slice_to.
    destruct (Z.leb_spec 0 (max_length - Z.of_nat (String.length suffix)));
      [|lia].
    rewrite Z2Nat.inj_sub, Nat2Z.id by lia. reflexivity.
Qed.

Lemma truncate_text_within_limit_witness :
  Z.of_nat (String.length (truncate_text long_content 200 "...")) <= 200
  /\ (Z.of_nat (String.length long_content) <= 200 ->
      truncate_text long_content 200 "..." = long_content)
  /\ (200 < Z.of_nat (String.length long_content) ->
      truncate_text long_content 200 "..."
      = substring 0 (Z.to_nat 200 - String.length "...") long_content +:+ "..."
      /\ Z.of_nat (String.length (truncate_text long_content 200 "...")) = 200).
Proof.
  apply (truncate_text_within_limit long_content 200 "..."). vm_compute.
  discriminate.
Defined.

(** With a suffix longer than [max_length], a text over the limit comes back
    longer than [max_length]: the slice bound is negative and counts from the
    end of the text. *)
Theorem truncate_text_long_suffix text max_length suffix :
  max_length < Z.of_nat (String.length suffix) ->
  max_length < Z.of_nat (String.length text) ->
  max_length < Z.of_nat (String.length (truncate_text text max_length suffix))
  /\ Z.of_nat (String.length (truncate_text text max_length suffix))
     = Z.max (Z.of_nat (String.length suffix))
             (Z.of_nat (String.length text) + max_length).
Proof.
  intros Hsuffix Htext. unfold truncate_text.
  destruct (Z.leb_spec (Z.of_nat (String.length text)) max_length); [lia|].
  rewrite length_str_app, Nat2Z.inj_add, length_slice_to.
  destruct (Z.leb_spec 0 (max_length - Z.of_nat (String.length suffix))); lia.
Qed.

Lemma truncate_text_long_suffix_witness :
  2 < Z.of_nat (String.length (truncate_text "labyrinth" 2 "..."))
  /\ Z.of_nat (String.length (truncate_text "labyrinth" 2 "..."))
     = Z.max (Z.of_nat (String.length "..."))
             (Z.of_nat (String.length "labyrinth") + 2).
Proof.
  apply (truncate_text_long_suffix "labyrinth" 2 "..."); vm_compute; reflexivity.
Defined.

(** Truncating twice is truncating once, when the suffix fits. *)
Theorem truncate_text_idempotent text max_length suffix :
  Z.of_nat (String.length suffix) <= max_length ->
  truncate_text (truncate_text text max_length suffix) max_length suffix
  = truncate_text text max_length suffix.
Proof.
  intros Hsuffix. unfold truncate_text at 2 3.
  destruct (Z.leb_spec (Z.of_nat (String.length text)) max_length) as [Hle|Hgt].
  - unfold truncate_text.
    destruct (Z.leb_spec (Z.of_nat (String.length text)) max_length); [|lia].
    reflexivity.
  - pose proof (length_truncated text max_length suffix Hsuffix Hgt) as Hlen.
    unfold truncate_text.
    destruct (Z.leb_spec
                (Z.of_nat (String.length
                   (slice_to (max_length - Z.of_nat (String.length suffix)) text
                    +:+ suffix))) max_length); [reflexivity|lia].
Qed.

Lemma truncate_text_idempotent_witness :
  truncate_text (truncate_text long_content 200 "...") 200 "..."
  = truncate_text long_content 200 "...".
Proof.
  apply (truncate_text_idempotent long_content 200 "..."). vm_compute.
  discriminate.
Defined.

Example truncate_text_examples :
  truncate_text "labyrinth" 6 "..." = "lab..."
  /\ truncate_text "labyrinth" 9 "..." = "labyrinth"
  /\ truncate_text "labyrinth" 2 "..." = "labyrint..."
  /\ truncate_text "labyrinth" 0 "..." = "labyri..."
  /\ truncate_text "" (-1) "..." = "...".
Proof. repeat split. Qed.

(** ** [clean_query] *)

Lemma split_cons c rest :
  split (String c rest)
  = if isspace c then split rest
    else match rest with
         | EmptyString => [String c EmptyString]
         | String c' _ =>
             if isspace c' then String c EmptyString :: split rest
             else match split rest with
                  | w :: ws => String c w :: ws
                  | [] => [String c EmptyString]
                  end
         end.
Proof. reflexivity. Qed.

Lemma rstrip_cons c rest :
  rstrip (String c rest)
  = match rstrip rest with
    | EmptyString => if isspace c then EmptyString else String c EmptyString
    | r => String c r
    end.
Proof. reflexivity. Qed.

Lemma split_whitespace_only s : whitespace_only s = true -> split s = [].
Proof.
  induction s as [|c rest IH]; [reflexivity|].
  cbn [whitespace_only]. intros [Hc Hrest]%andb_prop.
  rewrite split_cons, Hc. auto.
Qed.

Lemma split_nil_whitespace_only s : split s = [] -> whitespace_only s = true.
Proof.
  induction s as [|c rest IH]; [reflexivity|].
  rewrite split_cons. cbn [whitespace_only].
  destruct (isspace c); [exact IH|].
  destruct rest as [|c' r']; [discriminate|].
  destruct (isspace c'); [discriminate|].
  destruct (split (String c' r')); discriminate.
Qed.

Lemma split_words s : Forall word (split s).
Proof.
  induction s as [|c rest IH]; [constructor|].
  rewrite split_cons. destruct (isspace c) eqn:Hc; [exact IH|].
  assert (word (String c "")) as Hone.
  { split; [discriminate|]. cbn. rewrite Hc. reflexivity. }
  destruct rest as [|c' r']; [constructor; [exact Hone|apply Forall_nil_2]|].
  destruct (isspace c'); [constructor; assumption|].
  destruct (split (String c' r')) as [|w ws];
    [constructor; [exact Hone|apply Forall_nil_2]|].
  inversion IH as [|? ? [_ Hw] Hws]; subst.
  constructor; [|assumption].
  split; [discriminate|]. cbn. rewrite Hc, Hw. reflexivity.
Qed.

Lemma split_lstrip s : split (lstrip s) = split s.
Proof.
  induction s as [|c rest IH]; [reflexivity|].
  cbn [lstrip]. rewrite (split_cons c rest).
  destruct (isspace c) eqn:Hc; [exact IH|].
  rewrite split_cons, Hc. reflexivity.
Qed.

Lemma rstrip_head c rest c2 r2 :
  rstrip (String c rest) = String c2 r2 -> c2 = c.
Proof.
  rewrite rstrip_cons. destruct (rstrip rest); [destruct (isspace c)|];
    congruence.
Qed.

Lemma split_rstrip s : split (rstrip s) = split s.
Proof.
  induction s as [|c rest IH]; [reflexivity|].
  rewrite rstrip_cons. destruct (rstrip rest) as [|c2 r2] eqn:Hr.
  - pose proof (rstrip_empty_whitespace_only _ Hr) as Hws.
    rewrite (split_cons c rest), (split_whitespace_only _ Hws).
    destruct (isspace c) eqn:Hc; [reflexivity|].
    rewrite split_cons, Hc.
    destruct rest as [|c' r']; [reflexivity|].
    cbn [whitespace_only] in Hws. apply andb_prop in Hws as [-> _].
    reflexivity.
  - destruct rest as [|c' r']; [discriminate|].
    pose proof (rstrip_head _ _ _ _ Hr) as ->.
    rewrite (split_cons c (String c' r2)), (split_cons c (String c' r')).
    destruct (isspace c); [exact IH|].
    destruct (isspace c'); rewrite IH; reflexivity.
Qed.

Lemma split_strip s : split (strip s) = split s.
Proof.
  unfold strip. rewrite split_rstrip. apply split_lstrip.
Qed.

(** A word in front of the end of the text, or of a whitespace, is the first
    word of the text. *)
Lemma split_word_app w s :
  word w ->
  match s with EmptyString => True | String c _ => isspace c = true end ->
  split (w +:+ s) = w :: split s.
Proof.
  intros [Hne Hfree] Hs. induction w as [|c w IH]; [congruence|].
  cbn [whitespace_free] in Hfree.
  apply andb_prop in Hfree as [Hc%negb_true_iff Hw].
  change (String c w +:+ s) with (String c (w +:+ s)).
  rewrite split_cons, Hc.
  destruct w as [|c1 w1].
  - change ("" +:+ s) with s. destruct s as [|c0 r]; [reflexivity|].
    rewrite Hs. reflexivity.
  - change (String c1 w1 +:+ s) with (String c1 (w1 +:+ s)) in *.
    cbn [whitespace_free] in Hw.
    pose proof Hw as [Hc1%negb_true_iff _]%andb_prop. rewrite Hc1.
    rewrite IH by (discriminate || assumption). reflexivity.
Qed.

Lemma split_join ws : Forall word ws -> split (join " " ws) = ws.
Proof.
  induction 1 as [|w ws Hw Hws IH]; [reflexivity|].
  destruct ws as [|w2 rest].
  - cbn [join]. rewrite <- (str_app_nil_r w) at 1.
    apply (split_word_app w ""); [assumption|exact I].
  - change (join " " (w :: w2 :: rest))
      with (w +:+ " " +:+ join " " (w2 :: rest)).
    rewrite split_word_app; [|assumption|reflexivity].
    change (" " +:+ join " " (w2 :: rest))
      with (String " " (join " " (w2 :: rest))).
    rewrite split_cons. cbn [isspace]. rewrite IH. reflexivity.
Qed.

Lemma clean_query_split query : clean_query query = join " " (split query).
Proof.
  unfold clean_query. rewrite split_strip. reflexivity.
Qed.

(** The cleaned query is the words of the query, the runs of characters that
    are not whitespace, joined by single spaces; stripping the query first
    changes nothing. *)
Theorem clean_query_words query :
  exists words,
    clean_query query = join " " words
    /\ Forall word words
    /\ split query = words
    /\ split (clean_query query) = words.
Proof.
  exists (split query). rewrite clean_query_split.
  pose proof (split_words query).
  repeat split; [assumption|]. apply split_join. assumption.
Qed.

(** Cleaning a cleaned query changes nothing. *)
Theorem clean_query_idempotent query :
  clean_query (clean_query query) = clean_query query.
Proof.
  rewrite !clean_query_split, split_join; [reflexivity|apply split_words].
Qed.

(** The cleaned query is empty exactly when the query is blank. *)
Theorem clean_query_blank query :
  clean_query query = "" <-> whitespace_only query = true.
Proof.
  rewrite clean_query_split. split.
  - intros Hjoin. apply split_nil_whitespace_only.
    pose proof (split_words query) as Hwords.
    destruct (split query) as [|w ws]; [reflexivity|].
    inversion Hwords as [|? ? [Hne _] _]; subst.
    destruct w as [|c w]; [congruence|].
    destruct ws; discriminate.
  - intros Hws. rewrite split_whitespace_only by assumption. reflexivity.
Qed.

Lemma clean_query_blank_witness :
  clean_query (String "009" (String "010" "  ")) = "".
Proof.
  apply (proj2 (clean_query_blank (String "009" (String "010" "  ")))).
  reflexivity.
Defined.

Example clean_query_examples :
  clean_query ("  What   is" +:+ nl +:+ "the  Aleph? ") = "What is the Aleph?"
  /\ clean_query "" = ""
  /\ split " a  b " = ["a"; "b"].
Proof. repeat split; vm_compute; reflexivity. Qed.

(** ** [format_metadata] *)

Lemma format_items_omap items formatted_items :
  format_items items formatted_items
  = formatted_items ++ omap (fun kv => formatted_item kv.1 kv.2) items.
Proof.
  revert formatted_items.
  induction items as [|[key value] items IH]; intros acc; cbn.
  - rewrite app_nil_r. reflexivity.
  - destruct (formatted_item key value); rewrite IH; [|reflexivity].
    rewrite <- app_assoc. reflexivity.
Qed.

Lemma formatted_item_shown key value :
  formatted_item key value = None <-> shown_key key = false.
Proof.
  unfold formatted_item, shown_key.
  destruct (String.eqb key "story_title"), (String.eqb key "source"),
    (String.eqb key "page"), (String.eqb key "chapter"); cbn;
    split; congruence.
Qed.

Lemma omap_formatted_nil items :
  omap (fun kv => formatted_item kv.1 kv.2) items = []
  <-> Forall (fun kv => shown_key kv.1 = false) items.
Proof.
  induction items as [|[key value] items IH]; cbn.
  - split; constructor.
  - destruct (formatted_item key value) eqn:Hitem.
    + split; [discriminate|]. intros H. inversion H as [|? ? Hkey _]; subst.
      apply formatted_item_shown with (value := value) in Hkey. cbn in Hkey.
      congruence.
    + rewrite IH. apply formatted_item_shown in Hitem.
      split; [intros H; constructor; assumption|].
      intros H. inversion H. assumption.
Qed.

Lemma formatted_item_label key value item :
  formatted_item key value = Some item -> starts_with_label item.
Proof.
  unfold formatted_item, starts_with_label. intros H.
  repeat case_match; simplify_eq; eexists _, _; (split; [reflexivity|]); auto.
Qed.

Lemma join_label sep item items :
  starts_with_label item -> starts_with_label (join sep (item :: items)).
Proof.
  intros (c & rest & -> & Hc). destruct items as [|x items].
  - exists c, rest. auto.
  - exists c, (rest +:+ sep +:+ join sep (x :: items)). auto.
Qed.

(** The two fixed messages tell the cases apart: "No metadata available" is
    returned exactly for the empty dictionary, and "Basic metadata" exactly
    for a dictionary that is not empty and has none of the keys story_title,
    source, page and chapter. *)
Theorem format_metadata_fixed_messages (metadata : list (string * string)) :
  (format_metadata metadata = "No metadata available" <-> metadata = [])
  /\ (format_metadata metadata = "Basic metadata"
      <-> metadata <> []
          /\ Forall (fun kv => shown_key kv.1 = false) metadata).
Proof.
  destruct metadata as [|kv metadata].
  { split; split; try reflexivity; try discriminate. intros [H _]. congruence. }
  unfold format_metadata. rewrite format_items_omap, app_nil_l.
  rewrite <- omap_formatted_nil.
  destruct (omap _ (kv :: metadata)) as [|item items] eqn:Hitems.
  - split; split; try discriminate; auto.
  - assert (starts_with_label (join " | " (item :: items))) as (c & rest & -> & Hc).
    { apply join_label.
      assert (Some item = head (omap (fun kv => formatted_item kv.1 kv.2)
                                     (kv :: metadata))) as Hhead
        by (rewrite Hitems; reflexivity).
      clear Hitems. revert Hhead.
      generalize (kv :: metadata). intros l.
      induction l as [|[key value] l IH]; cbn; [discriminate|].
      destruct (formatted_item key value) eqn:Hitem; [|exact IH].
      cbn. intros [= <-]. eapply formatted_item_label, Hitem. }
    split; split; try discriminate.
    + intros [= -> _]. destruct Hc as [|[|]]; discriminate.
    + intros [= -> _]. destruct Hc as [|[|]]; discriminate.
    + intros [_ H]. discriminate.
Qed.

Lemma format_metadata_fixed_messages_witness :
  format_metadata [("isbn", "950-04-0217-1"); ("year", "1949")]
  = "Basic metadata".
Proof.
  apply (proj2 (proj2 (format_metadata_fixed_messages
                         [("isbn", "950-04-0217-1"); ("year", "1949")]))).
  split; [discriminate|]. repeat constructor.
Defined.

Example format_metadata_examples :
  format_metadata [("source", "ficciones.txt"); ("isbn", "950");
                   ("story_title", "Emma Zunz"); ("page", "12")]
  = "Source: ficciones.txt | Story: Emma Zunz | Page: 12"
  /\ format_metadata [("chapter", "3")] = "Chapter: 3"
  /\ format_metadata [] = "No metadata available".
Proof. repeat split. Qed.

(** ** [app.py]: the status functions *)

Example format_thousands_examples :
  map format_thousands [0; 7; 999; 1000; 12345; 1234567; 1000000; -1234; -12]
  = ["0"; "7"; "999"; "1,000"; "12,345"; "1,234,567"; "1,000,000"; "-1,234";
     "-12"].
Proof. vm_compute. reflexivity. Qed.

(** With a store at hand, [get_collection_status] reports "success" exactly
    when [count()] returned and "error" when it raised, the message being
    then the collection error with the cause; a failure of the sample query
    does not show, and no exception leaves the function. *)
Theorem get_collection_status_type env storage st :
  exists msg st',
    get_collection_status (Some env) storage st
    = (Return (msg, match collection_count env with
                    | Return _ => "success"
                    | Raise _ => "error"
                    end), st')
    /\ forall e, collection_count env = Raise e ->
         msg = "❌ Collection Error: " +:+ e.
Proof.
  unfold get_collection_status, ChromaVectorStore.get_collection_info,
    ChromaVectorStore._get_embedding_model.
  unfold_monad.
  destruct (collection_count env) as [n|e]; cbn.
  - destruct (0 <? n);
      [destruct (_embedding_model st); cbn|];
      repeat case_match; simplify_eq;
      eexists _, _; (split; [reflexivity|]); discriminate.
  - eexists _, _. split; [reflexivity|]. intros ? [= <-]. reflexivity.
Qed.

(** The search test asks for three results whatever [settings.top_k] is, and
    its status follows the search: "success" on passages, "warning" on none,
    "error", with the cause in the message, when the search raised. No
    exception leaves the function. *)
Theorem test_search_functionality_status env st outcome st1 :
  ChromaVectorStore.search env "Emma Zunz" (Some 3) None st = (outcome, st1) ->
  exists msg,
    test_search_functionality (Some env) st
    = (Return (msg, search_status outcome), st1)
    /\ forall e, outcome = Raise e -> msg = "❌ Search Test Failed: " +:+ e.
Proof.
  intros Hsearch. unfold test_search_functionality, try_except, bind.
  cbv zeta. rewrite Hsearch.
  destruct outcome as [[|first rest]|e].
  - eexists. split; [reflexivity|discriminate].
  - destruct (search_returns_inv _ _ _ _ _ _ _ Hsearch)
      as (embedding & results & row_docs & row_metas & row_dists
          & _ & _ & _ & _ & _ & Hdocs).
    destruct row_docs, row_metas, row_dists; try discriminate.
    injection Hdocs as -> _. cbn.
    eexists. split; [reflexivity|discriminate].
  - eexists. split; [reflexivity|]. intros ? [= <-]. reflexivity.
Qed.

Lemma test_search_functionality_status_witness :
  exists msg,
    test_search_functionality (Some failing_env) init_state
    = (Return (msg, search_status
                      (Raise
                         "Failed to search collection 'borges_stories': connection lost")),
       {| _embedding_model := true; _llm := false;
          trace := [EvSentenceTransformer "all-MiniLM-L6-v2";
                    EvEncode "Emma Zunz";
                    EvCollectionQuery [[0.25; 0.5]%float] 3
                      ["documents"; "metadatas"; "distances"]] |})
    /\ forall e,
         Raise "Failed to search collection 'borges_stories': connection lost"
         = @Raise (list Doc.t) e ->
         msg = "❌ Search Test Failed: " +:+ e.
Proof.
  apply (test_search_functionality_status failing_env init_state).
  vm_compute. reflexivity.
Defined.

Example test_search_three :
  fst (test_search_functionality (Some three_env) init_state)
  = Return ("✅ Search Test Successful" +:+ nl
            +:+ "🔍 Query: 'Emma Zunz'" +:+ nl
            +:+ "📊 Results: 3 documents found" +:+ nl
            +:+ "🎯 Top score: 0.900" +:+ nl
            +:+ "📝 Preview: On the fourteenth of January...", "success").
Proof. vm_compute. reflexivity. Qed.

Example get_collection_status_three :
  fst (get_collection_status (Some three_env) "./chroma_db" init_state)
  = Return ("✅ Connected to 'borges_stories' collection" +:+ nl
            +:+ "📊 Documents: 3" +:+ nl
            +:+ "💾 Storage: ./chroma_db" +:+ nl
            +:+ "📄 Status: connected" +:+ nl
            +:+ "🏷️ Metadata: story_title", "success").
Proof. vm_compute. reflexivity. Qed.

(** ** [BorgesVectorStore.create] and the start of [app.py] *)

(** Every exception that leaves [create] carries the message of the
    [ConnectionError], with the directory and the collection name in use, the
    configured ones when none or an empty one was passed. *)
Theorem create_raises_wrapped chroma base storage directory name st e st' :
  BorgesVectorStore.create chroma base storage directory name st
  = (Raise e, st') ->
  exists cause,
    e = connection_failure
          (or_setting directory (chroma_persist_directory storage))
          (or_setting name (chroma_collection_name storage)) cause.
Proof.
  unfold BorgesVectorStore.create. cbv zeta. unfold try_except at 1.
  destruct (bind _ _ st) as [[store|cause] st0]; [discriminate|].
  unfold raise. intros [= <- <-]. eauto.
Qed.

Lemma create_raises_wrapped_witness :
  exists cause,
    connection_failure "./chroma_db" "tlon" "Collection tlon does not exist."
    = connection_failure
        (or_setting (Some "") (chroma_persist_directory default_storage))
        (or_setting (Some "tlon") (chroma_collection_name default_storage))
        cause.
Proof.
  apply (create_raises_wrapped (stub_chroma (Return 3)) three_env
           default_storage (Some "") (Some "tlon") init_state _ init_state).
  vm_compute. reflexivity.
Defined.

(** When the collection is reached but its [count()] raises,
    [get_collection_info] turns the failure into the error record and
    [create] then fails on the missing key of that record: the error reported
    is ['count'], not the cause. *)
Theorem create_count_failure chroma base storage directory name st
        collection cause :
  PersistentClient chroma
    (or_setting directory (chroma_persist_directory storage)) = Return tt ->
  (exists names,
     list_collections chroma
       (or_setting directory (chroma_persist_directory storage))
     = Return names) ->
  get_collection chroma
    (or_setting directory (chroma_persist_directory storage))
    (or_setting name (chroma_collection_name storage)) = Return collection ->
  chroma_count collection = Raise cause ->
  BorgesVectorStore.create chroma base storage directory name st
  = (Raise (connection_failure
              (or_setting directory (chroma_persist_directory storage))
              (or_setting name (chroma_collection_name storage)) "'count'"),
     {| _embedding_model := false; _llm := _llm st;
        trace := trace st ++ [EvCollectionCount] |}).
Proof.
  intros Hclient [names Hlist] Hget Hcount.
  unfold BorgesVectorStore.create, ChromaVectorStore.get_collection_info,
    new_vector_store, with_collection. cbv zeta.
  unfold_monad. rewrite Hclient, Hlist, Hget. cbn. rewrite Hcount.
  reflexivity.
Qed.

Lemma create_count_failure_witness :
  BorgesVectorStore.create (stub_chroma (Raise "database is locked")) three_env
    default_storage None None init_state
  = (Raise (connection_failure
              (or_setting None (chroma_persist_directory default_storage))
              (or_setting None (chroma_collection_name default_storage))
              "'count'"),
     {| _embedding_model := false; _llm := _llm init_state;
        trace := trace init_state ++ [EvCollectionCount] |}).
Proof.
  apply (create_count_failure (stub_chroma (Raise "database is locked"))
           three_env default_storage None None init_state
           (borges_collection (Raise "database is locked"))
           "database is locked");
    [reflexivity|eexists; reflexivity|reflexivity|reflexivity].
Defined.

(** When the collection is reached and its [count()] returns, [create]
    returns the store built on that collection, whatever the sample query
    does. *)
Theorem create_connected chroma base storage directory name st
        collection n :
  PersistentClient chroma
    (or_setting directory (chroma_persist_directory storage)) = Return tt ->
  (exists names,
     list_collections chroma
       (or_setting directory (chroma_persist_directory storage))
     = Return names) ->
  get_collection chroma
    (or_setting directory (chroma_persist_directory storage))
    (or_setting name (chroma_collection_name storage)) = Return collection ->
  chroma_count collection = Return n ->
  exists st',
    BorgesVectorStore.create chroma base storage directory name st
    = (Return (with_collection base collection), st').
Proof.
  intros Hclient [names Hlist] Hget Hcount.
  unfold BorgesVectorStore.create, ChromaVectorStore.get_collection_info,
    ChromaVectorStore._get_embedding_model, new_vector_store. cbv zeta.
  unfold_monad. rewrite Hclient, Hlist, Hget. cbn. rewrite Hcount. cbn.
  destruct (0 <? n); [|eauto].
  repeat case_match; simplify_eq; eauto.
Qed.

Lemma create_connected_witness :
  exists st',
    BorgesVectorStore.create (stub_chroma (Return 3)) no_model_env
      default_storage None None init_state
    = (Return (with_collection no_model_env (borges_collection (Return 3))),
       st').
Proof.
  apply (create_connected (stub_chroma (Return 3)) no_model_env
           default_storage None None init_state
           (borges_collection (Return 3)) 3);
    [reflexivity|eexists; reflexivity|reflexivity|reflexivity].
Defined.

(** A start-up whose [create] raises leaves the application without store
    and without chain; from then on every message is answered by the
    not-initialized message and both status functions report the missing
    store, without any call to the collaborators. *)
Theorem initialize_failure chroma base storage st e st' :
  BorgesVectorStore.create chroma base storage None None st = (Raise e, st') ->
  BorgesVectorStore.initialize chroma base storage st
  = (Return (None, None), st')
  /\ forall message history directory st2,
       chat_with_librarian None message history st2
       = (Return not_initialized_message, st2)
       /\ get_collection_status None directory st2
          = (Return ("❌ Vector store not initialized", "error"), st2)
       /\ test_search_functionality None st2
          = (Return ("❌ Vector store not initialized", "error"), st2).
Proof.
  intros Hcreate. split.
  - unfold BorgesVectorStore.initialize, try_except, bind.
    rewrite Hcreate. reflexivity.
  - intros. repeat split.
Qed.

Lemma initialize_failure_witness :
  BorgesVectorStore.initialize (stub_chroma (Raise "database is locked"))
    three_env default_storage init_state
  = (Return (None, None),
     {| _embedding_model := false; _llm := false;
        trace := [EvCollectionCount] |})
  /\ forall message history directory st2,
       chat_with_librarian None message history st2
       = (Return not_initialized_message, st2)
       /\ get_collection_status None directory st2
          = (Return ("❌ Vector store not initialized", "error"), st2)
       /\ test_search_functionality None st2
          = (Return ("❌ Vector store not initialized", "error"), st2).
Proof.
  apply (initialize_failure (stub_chroma (Raise "database is locked"))
           three_env default_storage init_state
           (connection_failure "./chroma_db" "borges_stories" "'count'")).
  vm_compute. reflexivity.
Defined.

(** A start-up whose [create] returns gives the store and a chain on that
    store, with no LLM client yet. *)
Lemma initialize_success chroma base storage st vector_store st' :
  BorgesVectorStore.create chroma base storage None None st
  = (Return vector_store, st') ->
  BorgesVectorStore.initialize chroma base storage st
  = (Return (Some vector_store, Some vector_store),
     {| _embedding_model := _embedding_model st'; _llm := false;
        trace := trace st' |}).
Proof.
  intros Hcreate.
  unfold BorgesVectorStore.initialize, try_except, bind. rewrite Hcreate.
  reflexivity.
Qed.
